(** * Photo organizer prototype: a shallow embedding of
    [photo_organizer_prototype.py] and the properties of its ingestion
    pipeline, metadata store and search engine.

    Conventions of the embedding.
    - A Python [str] is a [string] whose characters are the code points
      U+0000..U+00FF; [str.lower], [str.split] and the JSON escapes are
      modelled exactly on that range.
    - A Python [dict] is an association list in insertion order with
      pairwise distinct keys ([Dict.set] replaces in place or appends).
    - The process state holds the module globals, the file system (a flat
      map from path to text; directories are implicit) and the table of
      the one [MockDynamoDB] instance.  Code that can raise lives in a
      state-and-exception monad: the state survives a raised exception,
      as the side effects of a Python call do.
    - [print] and [time.sleep] are not modelled; what [os.listdir],
      [datetime.now] and [random.uniform] return are parameters.
    - [os.path] is [posixpath]. *)

From Stdlib Require Import String Ascii List Bool Arith NArith Lia QArith.
Import ListNotations.
Open Scope string_scope.
Open Scope list_scope.
Open Scope nat_scope.

#[local] Set Warnings "-register-all".

(* ------------------------------------------------------------------ *)
(** ** Python strings *)

Module PyStr.

Definition code (c : ascii) : N := N_of_ascii c.

Definition in_range (lo hi : N) (n : N) : bool :=
  (N.leb lo n && N.leb n hi)%bool.

(** [str.lower] on one code point below U+0100: A-Z and the Latin-1
    capitals U+00C0..U+00DE (U+00D7, the multiplication sign, apart)
    move up by 32. *)
Definition lower_char (c : ascii) : ascii :=
  let n := code c in
  if (in_range 65 90 n
      || (in_range 192 222 n && negb (N.eqb n 215)))%bool
  then ascii_of_N (n + 32)
  else c.

Fixpoint lower (s : string) : string :=
  match s with
  | EmptyString => EmptyString
  | String c r => String (lower_char c) (lower r)
  end.

(** [str.isspace] on one code point below U+0100: what [str.split()]
    separates on. *)
Definition isspace (c : ascii) : bool :=
  let n := code c in
  (in_range 9 13 n || in_range 28 32 n
   || N.eqb n 133 || N.eqb n 160)%bool.

(** [s.split()]: the maximal runs of non-whitespace characters, in
    order; never an empty string. *)
Fixpoint split (s : string) : list string :=
  match s with
  | EmptyString => []
  | String c r =>
      if isspace c then split r
      else
        match r with
        | EmptyString => [String c EmptyString]
        | String d _ =>
            if isspace d then String c EmptyString :: split r
            else
              match split r with
              | w :: ws => String c w :: ws
              | [] => [String c EmptyString]
              end
        end
  end.

(** [s.split(sep)] for a one-character separator: every separator
    cuts, empty pieces are kept. *)
Fixpoint split_on (sep : ascii) (s : string) : list string :=
  match s with
  | EmptyString => [EmptyString]
  | String c r =>
      if Ascii.eqb c sep then EmptyString :: split_on sep r
      else
        match split_on sep r with
        | w :: ws => String c w :: ws
        | [] => [String c EmptyString]
        end
  end.

(** [s.startswith(p)], [s.endswith(p)]. *)
Definition startswith (s p : string) : bool := String.prefix p s.

Fixpoint endswith_char (s : string) (c : ascii) : bool :=
  match s with
  | EmptyString => false
  | String d EmptyString => Ascii.eqb d c
  | String _ r => endswith_char r c
  end.

(** [sub in s] for two strings: [sub] occurs in [s] as a contiguous
    substring. *)
Fixpoint str_in (sub s : string) : bool :=
  if String.prefix sub s then true
  else
    match s with
    | EmptyString => false
    | String _ r => str_in sub r
    end.

(** [x in l] for a list of strings: some element equals [x]. *)
Fixpoint list_in (x : string) (l : list string) : bool :=
  match l with
  | [] => false
  | y :: r => if String.eqb x y then true else list_in x r
  end.

(** [s.rfind(sep) + 1]: one past the last occurrence of [sep], 0 when
    there is none. *)
Fixpoint rfind_succ (sep : ascii) (s : string) : nat :=
  match s with
  | EmptyString => 0
  | String c r =>
      match rfind_succ sep r with
      | 0 => if Ascii.eqb c sep then 1 else 0
      | S k => S (S k)
      end
  end.

(** [s[i:]]. *)
Fixpoint slice_from (i : nat) (s : string) : string :=
  match i, s with
  | 0, _ => s
  | S _, EmptyString => EmptyString
  | S k, String _ r => slice_from k r
  end.

End PyStr.

(* ------------------------------------------------------------------ *)
(** ** [posixpath] *)

Module PosixPath.

Definition sep : ascii := "/"%char.

(** [os.path.basename(p)]: [i = p.rfind('/') + 1; return p[i:]]. *)
Definition basename (p : string) : string :=
  let i := PyStr.rfind_succ sep p in
  PyStr.slice_from i p.

(** [os.path.join(a, b)]. *)
Definition join (a b : string) : string :=
  if PyStr.startswith b "/" then b
  else if (String.eqb a "" || PyStr.endswith_char a sep)%bool then a ++ b
  else a ++ "/" ++ b.

End PosixPath.

(* ------------------------------------------------------------------ *)
(** ** Insertion-ordered dictionaries with string keys *)

Module Dict.

Definition t (V : Type) : Type := list (string * V).

Definition empty {V} : t V := [].

(** [d.get(k)] *)
Fixpoint get {V} (k : string) (d : t V) : option V :=
  match d with
  | [] => None
  | (k', v) :: r => if String.eqb k k' then Some v else get k r
  end.

(** [d[k] = v]: an existing key keeps its position, a new key goes
    last. *)
Fixpoint set {V} (k : string) (v : V) (d : t V) : t V :=
  match d with
  | [] => [(k, v)]
  | (k', v') :: r =>
      if String.eqb k k' then (k, v) :: r else (k', v') :: set k v r
  end.

Definition keys {V} (d : t V) : list string := map fst d.

(** [list(d.values())] *)
Definition values {V} (d : t V) : list V := map snd d.

(** What a Python dict guarantees: no key occurs twice. *)
Definition wf {V} (d : t V) : Prop := NoDup (keys d).

(** [dict(pairs)]: the pairs are assigned from left to right. *)
Definition of_pairs {V} (l : list (string * V)) : t V :=
  fold_left (fun d kv => set (fst kv) (snd kv) d) l empty.

End Dict.

(* ------------------------------------------------------------------ *)
(** ** Exceptions *)

(** The exceptions the modelled code can raise.  [Unmodelled] is not a
    Python exception: it marks an input that leaves the modelled fragment
    (a JSON number or literal, a code point above U+00FF, a snapshot entry
    that is not a six-field metadata dictionary), for which the model
    gives no verdict. *)
Inductive exn : Type :=
| FileNotFoundError
| SameFileError
| JSONDecodeError
| DetectionError
| Unmodelled.

Inductive result (A : Type) : Type :=
| Ok (a : A)
| Raise (e : exn).
Arguments Ok {A} a.
Arguments Raise {A} e.

Definition rbind {A B} (r : result A) (k : A -> result B) : result B :=
  match r with
  | Ok a => k a
  | Raise e => Raise e
  end.

Declare Scope result_scope.
Delimit Scope result_scope with result.
Notation "x <- c1 ;; c2" := (rbind c1 (fun x => c2))
  (at level 61, c1 at next level, right associativity) : result_scope.
Notation "' pat <- c1 ;; c2" := (rbind c1 (fun x => match x with pat => c2 end))
  (at level 61, pat pattern, c1 at next level, right associativity)
  : result_scope.

(* ------------------------------------------------------------------ *)
(** ** The [json] module on strings, lists and dictionaries *)

Module Json.

(** The values [json.dump] meets in the table and [json.load] builds
    from a snapshot: [str], [list], and [dict] as its list of pairs in
    document order. *)
Inductive value : Type :=
| JStr (s : string)
| JArr (l : list value)
| JObj (l : list (string * value)).

(** *** Encoding: [json.dump(obj, f, indent=2)] *)

Definition hex_digit (n : N) : ascii :=
  if N.ltb n 10 then ascii_of_N (48 + n) else ascii_of_N (87 + n).

(** ['\\u{0:04x}'.format(n)] for [n < 256]. *)
Definition escape_u (n : N) : string :=
  String "\" (String "u" (String "0" (String "0"
    (String (hex_digit (N.div n 16))
       (String (hex_digit (N.modulo n 16)) EmptyString))))).

(** [ESCAPE_ASCII] with [ESCAPE_DCT]: the replacement of one
    character. *)
Definition escape_char (c : ascii) : string :=
  let n := PyStr.code c in
  if N.eqb n 34 then String "\" (String "034" EmptyString)
  else if N.eqb n 92 then String "\" (String "\" EmptyString)
  else if N.eqb n 10 then String "\" (String "n" EmptyString)
  else if N.eqb n 13 then String "\" (String "r" EmptyString)
  else if N.eqb n 9 then String "\" (String "t" EmptyString)
  else if N.eqb n 8 then String "\" (String "b" EmptyString)
  else if N.eqb n 12 then String "\" (String "f" EmptyString)
  else if PyStr.in_range 32 126 n then String c EmptyString
  else escape_u n.

Fixpoint escape (s : string) : string :=
  match s with
  | EmptyString => EmptyString
  | String c r => (escape_char c ++ escape r)%string
  end.

(** [encode_basestring_ascii] *)
Definition encode_str (s : string) : string :=
  String "034" (escape s ++ String "034" EmptyString)%string.

Fixpoint spaces (n : nat) : string :=
  match n with
  | 0 => EmptyString
  | S k => String " " (spaces k)
  end.

(** ['\n' + indent * level] with [indent = 2] spaces. *)
Definition newline_indent (level : nat) : string :=
  String "010" (spaces (2 * level)).

(** The elements of a list or dictionary after the first one, each
    behind [item_separator + newline_indent]. *)
Section EncodeMore.
Context {A : Type} (enc : A -> string) (sep : string).

Fixpoint encode_more (l : list A) : string :=
  match l with
  | [] => EmptyString
  | y :: l' => ("," ++ sep ++ enc y ++ encode_more l')%string
  end.

End EncodeMore.

(** [_iterencode] at a nesting level, the chunks joined. *)
Fixpoint encode (level : nat) (v : value) : string :=
  match v with
  | JStr s => encode_str s
  | JArr [] => "[]"
  | JArr (x :: xs) =>
      ("[" ++ newline_indent (S level) ++ encode (S level) x
       ++ encode_more (encode (S level)) (newline_indent (S level)) xs
       ++ newline_indent level ++ "]")%string
  | JObj [] => "{}"
  | JObj ((k, x) :: xs) =>
      ("{" ++ newline_indent (S level) ++ encode_str k ++ ": "
       ++ encode (S level) x
       ++ encode_more
            (fun kv => encode_str (fst kv) ++ ": " ++ encode (S level) (snd kv))
            (newline_indent (S level)) xs
       ++ newline_indent level ++ "}")%string
  end.

(** The nesting the decoder goes through on a value. *)
Fixpoint size (v : value) : nat :=
  match v with
  | JStr _ => 1
  | JArr l => S (list_sum (map (fun x => S (size x)) l))
  | JObj l => S (list_sum (map (fun kv => S (size (snd kv))) l))
  end.

(** [json.dumps(obj, indent=2)] *)
Definition dumps (v : value) : string := encode 0 v.

(** *** Decoding: [json.load(f)] *)

(** [WHITESPACE]: space, tab, line feed, carriage return. *)
Definition is_ws (c : ascii) : bool :=
  let n := PyStr.code c in
  (N.eqb n 32 || N.eqb n 9 || N.eqb n 10 || N.eqb n 13)%bool.

Fixpoint skip_ws (s : string) : string :=
  match s with
  | EmptyString => EmptyString
  | String c r => if is_ws c then skip_ws r else s
  end.

Definition hex_val (c : ascii) : option N :=
  let n := PyStr.code c in
  if PyStr.in_range 48 57 n then Some (n - 48)%N
  else if PyStr.in_range 97 102 n then Some (n - 87)%N
  else if PyStr.in_range 65 70 n then Some (n - 55)%N
  else None.

Definition hex4 (a b c d : ascii) : option N :=
  match hex_val a, hex_val b, hex_val c, hex_val d with
  | Some x, Some y, Some z, Some w =>
      Some (((x * 16 + y) * 16 + z) * 16 + w)%N
  | _, _, _, _ => None
  end.

(** [BACKSLASH]: the one-character escapes. *)
Definition backslash (e : ascii) : option ascii :=
  let n := PyStr.code e in
  if N.eqb n 34 then Some "034"%char
  else if N.eqb n 92 then Some "\"%char
  else if N.eqb n 47 then Some "/"%char
  else if N.eqb n 98 then Some "008"%char
  else if N.eqb n 102 then Some "012"%char
  else if N.eqb n 110 then Some "010"%char
  else if N.eqb n 114 then Some "013"%char
  else if N.eqb n 116 then Some "009"%char
  else None.

(** [scanstring] (strict) from just after the opening quote: the
    decoded string and the text after the closing quote. *)
Fixpoint scanstring (s : string) : result (string * string) :=
  match s with
  | EmptyString => Raise JSONDecodeError
  | String c r =>
      if Ascii.eqb c "034" then Ok (EmptyString, r)
      else if Ascii.eqb c "\" then
        match r with
        | EmptyString => Raise JSONDecodeError
        | String e r1 =>
            if Ascii.eqb e "u" then
              match r1 with
              | String h1 (String h2 (String h3 (String h4 r2))) =>
                  match hex4 h1 h2 h3 h4 with
                  | None => Raise JSONDecodeError
                  | Some n =>
                      if N.ltb n 256 then
                        ('(str, r3) <- scanstring r2 ;;
                         Ok (String (ascii_of_N n) str, r3))%result
                      else Raise Unmodelled
                  end
              | _ => Raise JSONDecodeError
              end
            else
              match backslash e with
              | None => Raise JSONDecodeError
              | Some c' =>
                  ('(str, r3) <- scanstring r1 ;;
                   Ok (String c' str, r3))%result
              end
        end
      else if N.ltb (PyStr.code c) 32 then Raise JSONDecodeError
      else
        ('(str, r3) <- scanstring r ;; Ok (String c str, r3))%result
  end.

(** The first characters of the JSON values outside [value]: [null],
    [true], [false], [NaN], [Infinity] and numbers. *)
Definition starts_other_value (c : ascii) : bool :=
  let n := PyStr.code c in
  (N.eqb n 110 || N.eqb n 116 || N.eqb n 102 || N.eqb n 78
   || N.eqb n 73 || N.eqb n 45 || PyStr.in_range 48 57 n)%bool.

(** [scan_once], [JSONArray] from its first element and [JSONObject]
    from the quote of its first key.  The recursion of the decoder is
    unrolled [fuel] times. *)
Fixpoint scan_once (fuel : nat) (s : string) {struct fuel}
    : result (value * string) :=
  match fuel with
  | 0 => Raise Unmodelled
  | S f =>
      match s with
      | EmptyString => Raise JSONDecodeError
      | String c r =>
          if Ascii.eqb c "034" then
            ('(str, r1) <- scanstring r ;; Ok (JStr str, r1))%result
          else if Ascii.eqb c "[" then
            match skip_ws r with
            | EmptyString => Raise JSONDecodeError
            | String d r1 =>
                if Ascii.eqb d "]" then Ok (JArr [], r1)
                else
                  ('(l, r2) <- parse_array f (String d r1) ;;
                   Ok (JArr l, r2))%result
            end
          else if Ascii.eqb c "{" then
            match skip_ws r with
            | EmptyString => Raise JSONDecodeError
            | String d r1 =>
                if Ascii.eqb d "}" then Ok (JObj [], r1)
                else
                  ('(l, r2) <- parse_object f (String d r1) ;;
                   Ok (JObj l, r2))%result
            end
          else if starts_other_value c then Raise Unmodelled
          else Raise JSONDecodeError
      end
  end
with parse_array (fuel : nat) (s : string) {struct fuel}
    : result (list value * string) :=
  match fuel with
  | 0 => Raise Unmodelled
  | S f =>
      ('(v, r) <- scan_once f s ;;
       match skip_ws r with
       | EmptyString => Raise JSONDecodeError
       | String c r1 =>
           if Ascii.eqb c "]" then Ok ([v], r1)
           else if Ascii.eqb c "," then
             '(vs, r2) <- parse_array f (skip_ws r1) ;;
             Ok (v :: vs, r2)
           else Raise JSONDecodeError
       end)%result
  end
with parse_object (fuel : nat) (s : string) {struct fuel}
    : result (list (string * value) * string) :=
  match fuel with
  | 0 => Raise Unmodelled
  | S f =>
      match s with
      | EmptyString => Raise JSONDecodeError
      | String q r =>
          if Ascii.eqb q "034" then
            ('(key, r1) <- scanstring r ;;
             match skip_ws r1 with
             | EmptyString => Raise JSONDecodeError
             | String c r2 =>
                 if Ascii.eqb c ":" then
                   '(v, r3) <- scan_once f (skip_ws r2) ;;
                   match skip_ws r3 with
                   | EmptyString => Raise JSONDecodeError
                   | String d r4 =>
                       if Ascii.eqb d "}" then Ok ([(key, v)], r4)
                       else if Ascii.eqb d "," then
                         '(ms, r5) <- parse_object f (skip_ws r4) ;;
                         Ok ((key, v) :: ms, r5)
                       else Raise JSONDecodeError
                   end
                 else Raise JSONDecodeError
             end)%result
          else Raise JSONDecodeError
      end
  end.

(** [json.loads(s)]: one value between optional whitespace, nothing
    after it.  The decoder consumes a character at least every second
    level of its recursion, hence the number of unrollings. *)
Definition loads (s : string) : result value :=
  ('(v, r) <- scan_once (2 * String.length s + 2) (skip_ws s) ;;
   match skip_ws r with
   | EmptyString => Ok v
   | String _ _ => Raise JSONDecodeError
   end)%result.

End Json.

(* ------------------------------------------------------------------ *)
(** ** Metadata records *)

(** The metadata dictionary built by [upload_and_process]. *)
Record Item : Type := mkItem {
  photo_id : string;
  user_id : string;
  timestamp : string;
  tags : list string;
  original_filename : string;
  location : string
}.

(** [self.table]: from [photo_id] to metadata. *)
Definition Table : Type := Dict.t Item.

(** How [json.dump] sees a metadata dictionary and the table. *)
Definition json_of_item (item : Item) : Json.value :=
  Json.JObj
    [("photo_id", Json.JStr (photo_id item));
     ("user_id", Json.JStr (user_id item));
     ("timestamp", Json.JStr (timestamp item));
     ("tags", Json.JArr (map Json.JStr (tags item)));
     ("original_filename", Json.JStr (original_filename item));
     ("location", Json.JStr (location item))].

Definition json_of_table (table : Table) : Json.value :=
  Json.JObj (map (fun kv => (fst kv, json_of_item (snd kv))) table).

(** What [json.load] returns, read back as a table.  An entry that is
    not a metadata dictionary with exactly the six fields in the order
    [upload_and_process] writes them is outside the model. *)
Fixpoint strs_of_json (l : list Json.value) : result (list string) :=
  match l with
  | [] => Ok []
  | Json.JStr s :: r => (rest <- strs_of_json r ;; Ok (s :: rest))%result
  | _ :: _ => Raise Unmodelled
  end.

Definition item_of_json (v : Json.value) : result Item :=
  match v with
  | Json.JObj
      [(k1, Json.JStr a); (k2, Json.JStr b); (k3, Json.JStr c);
       (k4, Json.JArr l); (k5, Json.JStr d); (k6, Json.JStr e)] =>
      if (String.eqb k1 "photo_id" && String.eqb k2 "user_id"
          && String.eqb k3 "timestamp" && String.eqb k4 "tags"
          && String.eqb k5 "original_filename"
          && String.eqb k6 "location")%bool
      then (ts <- strs_of_json l ;; Ok (mkItem a b c ts d e))%result
      else Raise Unmodelled
  | _ => Raise Unmodelled
  end.

Fixpoint entries_of_json (l : list (string * Json.value))
    : result (list (string * Item)) :=
  match l with
  | [] => Ok []
  | (k, v) :: r =>
      (item <- item_of_json v ;;
       rest <- entries_of_json r ;;
       Ok ((k, item) :: rest))%result
  end.

Definition table_of_json (v : Json.value) : result Table :=
  match v with
  | Json.JObj l =>
      (entries <- entries_of_json l ;; Ok (Dict.of_pairs entries))%result
  | _ => Raise Unmodelled
  end.

(* ------------------------------------------------------------------ *)
(** ** The file system *)

(** A flat map from path to text. *)
Definition FS : Type := Dict.t string.

(** [os.path.exists] *)
Definition path_exists (fs : FS) (path : string) : bool :=
  match Dict.get path fs with
  | Some _ => true
  | None => false
  end.

(** [open(path, 'r').read()] *)
Definition read_text (fs : FS) (path : string) : result string :=
  match Dict.get path fs with
  | Some text => Ok text
  | None => Raise FileNotFoundError
  end.

(** The writes a file undergoes, as another process or a restart can
    observe them: [open(path, 'w')] creates or truncates the file; the
    text written through the file object reaches the file when the
    buffer is flushed, on leaving the [with] block at the latest. *)
Inductive fs_op : Type :=
| OpenTruncate (path : string)
| Flush (path : string) (data : string).

Definition apply_op (fs : FS) (op : fs_op) : FS :=
  match op with
  | OpenTruncate path => Dict.set path EmptyString fs
  | Flush path data =>
      match Dict.get path fs with
      | Some old => Dict.set path (old ++ data)%string fs
      | None => Dict.set path data fs
      end
  end.

Definition run_ops (fs : FS) (ops : list fs_op) : FS :=
  fold_left apply_op ops fs.

(** The file systems observable while [ops] run: after each operation,
    the last one included. *)
Fixpoint trace (fs : FS) (ops : list fs_op) : list FS :=
  match ops with
  | [] => []
  | op :: rest => apply_op fs op :: trace (apply_op fs op) rest
  end.

Definition op_path (op : fs_op) : string :=
  match op with
  | OpenTruncate path => path
  | Flush path _ => path
  end.

(* ------------------------------------------------------------------ *)
(** ** [MockS3] *)

Module MockS3.

(** [upload_file]: [os.makedirs] has nothing to do on a flat file
    system; [shutil.copy2] raises when the source is missing or is the
    destination itself.  What the flat map cannot tell is outside this
    definition: a component of the destination that is a regular file
    ([os.makedirs] raises), a source that is a directory, two paths
    that name one file (through [.], [..] or a link), the directory a
    failed copy leaves behind.  The theorems below therefore take a
    call that returns as a hypothesis, or hold whatever way it ends,
    and speak of the table rather than of the files where the two
    differ. *)
Definition upload_file (S3_BUCKET_DIR : string) (source_path key : string)
    (fs : FS) : result (string * FS) :=
  let destination := PosixPath.join S3_BUCKET_DIR key in
  match Dict.get source_path fs with
  | None => Raise FileNotFoundError
  | Some data =>
      if String.eqb source_path destination then Raise SameFileError
      else Ok (destination, Dict.set destination data fs)
  end.

Definition get_file_url (S3_BUCKET_DIR : string) (key : string) : string :=
  PosixPath.join S3_BUCKET_DIR key.

End MockS3.

(* ------------------------------------------------------------------ *)
(** ** [MockRekognition] *)

(** One detection result, [{"Name": ..., "Confidence": ...}]. *)
Record Label : Type := mkLabel {
  Name : string;
  Confidence : Q
}.

(** What [upload_and_process] asks of [self.rekognition]: labels for a
    key, or an exception. *)
Definition Detector : Type := string -> result (list Label).

Module MockRekognition.

(** [detect_labels]; [uniform i] is the [i]-th draw of
    [random.uniform(85.0, 99.9)]. *)
Definition detect_labels (uniform : nat -> Q) (image_key : string)
    : list Label :=
  let labels := ["Person"; "Indoor"; "Screenshot"] in
  let lower_key := PyStr.lower image_key in
  let labels :=
    if PyStr.str_in "error" lower_key
    then labels ++ ["Text"; "Error Message"; "Computer"; "Monitor"]
    else labels in
  let labels :=
    if PyStr.str_in "search" lower_key
    then labels ++ ["Web Page"; "Search Results"; "UI"; "Internet"]
    else labels in
  let labels :=
    if PyStr.str_in "login" lower_key
    then labels ++ ["Form"; "Login Screen"; "Security"]
    else labels in
  let labels :=
    if PyStr.str_in "job" lower_key
    then labels ++ ["Document"; "Resume"; "Business"]
    else labels in
  map (fun il => mkLabel (snd il) (uniform (fst il)))
      (combine (seq 0 (List.length labels)) labels).

Definition detector (uniform : nat -> Q) : Detector :=
  fun image_key => Ok (detect_labels uniform image_key).

End MockRekognition.

(* ------------------------------------------------------------------ *)
(** ** [MockDynamoDB] *)

Module MockDynamoDB.

(** [__init__]: the table starts empty and is replaced by the snapshot
    when [DB_FILE] exists. *)
Definition __init__ (DB_FILE : string) (fs : FS) : result Table :=
  if path_exists fs DB_FILE then
    (text <- read_text fs DB_FILE ;;
     v <- Json.loads text ;;
     table_of_json v)%result
  else Ok Dict.empty.

(** [_save], as the operations it performs on the file system: the
    [open] and the write of the text [json.dump] produces.  A snapshot
    longer than the buffer of the file object reaches the file in
    several pieces; keeping one write only leaves intermediate contents
    out. *)
Definition _save_ops (DB_FILE : string) (table : Table) : list fs_op :=
  [OpenTruncate DB_FILE;
   Flush DB_FILE (Json.dumps (json_of_table table))].

Definition _save (DB_FILE : string) (table : Table) (fs : FS) : FS :=
  run_ops fs (_save_ops DB_FILE table).

(** [put_item]: the new table and the file system after [_save]. *)
Definition put_item (DB_FILE : string) (item : Item) (table : Table)
    (fs : FS) : Table * FS :=
  let key := photo_id item in
  let table := Dict.set key item table in
  (table, _save DB_FILE table fs).

Definition get_item (table : Table) (pid : string) : option Item :=
  Dict.get pid table.

Definition scan (table : Table) : list Item := Dict.values table.

End MockDynamoDB.

(* ------------------------------------------------------------------ *)
(** ** [MockOpenSearch] *)

Module MockOpenSearch.

(** The inner loop of [search]:
    [for token in query_tokens:
       if token in item_tags or token in item_id: match = True; break]. *)
Fixpoint match_loop (query_tokens : list string)
    (item_tags : list string) (item_id : string) : bool :=
  match query_tokens with
  | [] => false
  | token :: rest =>
      if (PyStr.list_in token item_tags || PyStr.str_in token item_id)%bool
      then true
      else match_loop rest item_tags item_id
  end.

(** The outer loop of [search] over [all_items]. *)
Fixpoint search_loop (query_tokens : list string) (all_items : list Item)
    : list Item :=
  match all_items with
  | [] => []
  | item :: rest =>
      let item_tags := map PyStr.lower (tags item) in
      let item_id := PyStr.lower (photo_id item) in
      let matched := match_loop query_tokens item_tags item_id in
      if matched then item :: search_loop query_tokens rest
      else search_loop query_tokens rest
  end.

(** [search] on the table of the store [self.db] refers to. *)
Definition search (table : Table) (query_text : string) : list Item :=
  let all_items := MockDynamoDB.scan table in
  let query_tokens := PyStr.split (PyStr.lower query_text) in
  search_loop query_tokens all_items.

End MockOpenSearch.

(* ------------------------------------------------------------------ *)
(** ** [PhotoOrganizerSystem] *)

(** The process state: the module global [BASE_DIR], the file system and
    the table of [self.db]. *)
Record State : Type := mkState {
  BASE_DIR : string;
  files : FS;
  db_table : Table
}.

Definition S3_BUCKET_DIR (st : State) : string :=
  PosixPath.join (BASE_DIR st) "mock_s3_bucket".

Definition DB_FILE (st : State) : string :=
  PosixPath.join (BASE_DIR st) "mock_dynamodb.json".

(** Computations that read and write the state and may raise. *)
Definition M (A : Type) : Type := State -> result A * State.

Definition ret {A} (a : A) : M A := fun st => (Ok a, st).

Definition bind {A B} (m : M A) (k : A -> M B) : M B :=
  fun st =>
    match m st with
    | (Ok a, st') => k a st'
    | (Raise e, st') => (Raise e, st')
    end.

Definition lift {A} (r : result A) : M A := fun st => (r, st).

Declare Scope M_scope.
Delimit Scope M_scope with M.
Notation "x <- c1 ;; c2" := (bind c1 (fun x => c2))
  (at level 61, c1 at next level, right associativity) : M_scope.

Module PhotoOrganizerSystem.

(** [__init__]: only [MockDynamoDB()] touches the state. *)
Definition __init__ (base_dir : string) (fs : FS) : result State :=
  (table <-
     MockDynamoDB.__init__ (PosixPath.join base_dir "mock_dynamodb.json") fs ;;
   Ok (mkState base_dir fs table))%result.

(** [self.s3.upload_file(file_path, s3_key)] *)
Definition s3_upload_file (source_path key : string) : M string :=
  fun st =>
    match MockS3.upload_file (S3_BUCKET_DIR st) source_path key (files st) with
    | Ok (destination, fs') =>
        (Ok destination, mkState (BASE_DIR st) fs' (db_table st))
    | Raise e => (Raise e, st)
    end.

(** [self.db.put_item(metadata)] *)
Definition db_put_item (item : Item) : M unit :=
  fun st =>
    let '(table', fs') :=
      MockDynamoDB.put_item (DB_FILE st) item (db_table st) (files st) in
    (Ok tt, mkState (BASE_DIR st) fs' table').

(** [upload_and_process(file_path, user_id)], with [self.rekognition]
    and the value of [datetime.now().isoformat()] as parameters. *)
Definition upload_and_process (rekognition : Detector) (now : string)
    (file_path : string) (user_id : string) : M Item :=
  let filename := PosixPath.basename file_path in
  let timestamp := now in
  let s3_key := (user_id ++ "/" ++ filename)%string in
  (_ <- s3_upload_file file_path s3_key ;;
   labels_data <- lift (rekognition s3_key) ;;
   let tags := map Name labels_data in
   let metadata :=
     {| photo_id := s3_key;
        user_id := user_id;
        timestamp := timestamp;
        tags := tags;
        original_filename := filename;
        location := "Unknown" |} in
   _ <- db_put_item metadata ;;
   ret metadata)%M.

(** The default of the parameter [user_id]. *)
Definition default_user_id : string := "user_123".

(** [search_photos(query)] *)
Definition search_photos (query : string) : M (list Item) :=
  fun st => (Ok (MockOpenSearch.search (db_table st) query), st).

End PhotoOrganizerSystem.

(* ------------------------------------------------------------------ *)
(** ** The claims of the specification, as predicates *)

(** A string is a substring of another one. *)
Definition substring_of (sub s : string) : Prop :=
  exists pre post : string, s = (pre ++ sub ++ post)%string.

(** The tokens of a query, as [search] computes them. *)
Definition query_tokens_of (query_text : string) : list string :=
  PyStr.split (PyStr.lower query_text).

(** Section 4.4 of the specification, in its words: a record matches
    when a query token equals an entry of its tags, compared in lower
    case, or a lower-cased segment of its id split on the path
    separator. *)
Definition spec_matches (query_tokens : list string) (item : Item) : Prop :=
  exists token : string,
    In token query_tokens
    /\ (In token (map PyStr.lower (tags item))
        \/ In token
             (map PyStr.lower (PyStr.split_on PosixPath.sep (photo_id item)))).

(** What the code tests on a record. *)
Definition code_matches (query_tokens : list string) (item : Item) : Prop :=
  exists token : string,
    In token query_tokens
    /\ (In token (map PyStr.lower (tags item))
        \/ substring_of token (PyStr.lower (photo_id item))).

(** [T] appears case-insensitively in the tags of [item], as a whole
    entry or as a whitespace-delimited token of an entry. *)
Definition tag_token (T : string) (item : Item) : Prop :=
  exists tag : string,
    In tag (tags item)
    /\ (PyStr.lower tag = PyStr.lower T
        \/ In (PyStr.lower T) (PyStr.split (PyStr.lower tag))).

(** A non-empty string without whitespace: one token for [str.split]. *)
Fixpoint no_space (s : string) : bool :=
  match s with
  | EmptyString => true
  | String c r => (negb (PyStr.isspace c) && no_space r)%bool
  end.

Definition one_word (s : string) : bool :=
  match s with
  | EmptyString => false
  | String _ _ => no_space s
  end.

(** The tables the system builds: distinct keys, every record stored
    under its own [photo_id]. *)
Definition table_ok (table : Table) : Prop :=
  Dict.wf table /\ Forall (fun kv => photo_id (snd kv) = fst kv) table.

(** [put_item] for each item of a list, in order. *)
Fixpoint put_items (DB_FILE : string) (items : list Item) (table : Table)
    (fs : FS) : Table * FS :=
  match items with
  | [] => (table, fs)
  | item :: rest =>
      let '(table', fs') := MockDynamoDB.put_item DB_FILE item table fs in
      put_items DB_FILE rest table' fs'
  end.

(** The snapshot file is only ever the old or the new full snapshot. *)
Definition atomic_save (DB_FILE : string) (table : Table) (fs : FS) : Prop :=
  forall fs' : FS,
    In fs' (trace fs (MockDynamoDB._save_ops DB_FILE table)) ->
    Dict.get DB_FILE fs' = Dict.get DB_FILE fs
    \/ Dict.get DB_FILE fs' = Some (Json.dumps (json_of_table table)).

(** The new snapshot goes to a location other than [DB_FILE] first. *)
Definition writes_elsewhere_first (DB_FILE : string) (table : Table) : Prop :=
  exists (op : fs_op) (rest : list fs_op),
    MockDynamoDB._save_ops DB_FILE table = op :: rest
    /\ op_path op <> DB_FILE.

(** The key and the metadata [upload_and_process] computes from its
    arguments and the detection result. *)
Definition s3_key_of (file_path user_id : string) : string :=
  (user_id ++ "/" ++ PosixPath.basename file_path)%string.

Definition metadata_of (now file_path user_id : string)
    (labels_data : list Label) : Item :=
  {| photo_id := s3_key_of file_path user_id;
     user_id := user_id;
     timestamp := now;
     tags := map Name labels_data;
     original_filename := PosixPath.basename file_path;
     location := "Unknown" |}.

(** Texts that start as a JSON string, list or dictionary does. *)
Definition starts_value (s : string) : Prop :=
  exists c r,
    s = String c r /\ (c = "034"%char \/ c = "["%char \/ c = "{"%char).

(** The tails [encode] writes after the first element of a list and
    after the first entry of a dictionary. *)
Local Abbreviation arr_more level :=
  (Json.encode_more (Json.encode (S level)) (Json.newline_indent (S level))).
Local Abbreviation obj_enc level :=
  (fun kv : (string * Json.value)%type =>
     String.append (Json.encode_str (fst kv))
       (String.append ": " (Json.encode (S level) (snd kv)))).
Local Abbreviation obj_more level :=
  (Json.encode_more (obj_enc level) (Json.newline_indent (S level))).

(** *** Inputs used in the examples *)

Definition rec_png : Item :=
  mkItem "u1/a.png" "u1" "2024-05-01T10:00:00" ["Person"] "a.png" "Unknown".

Definition table_png : Table := [("u1/a.png", rec_png)].

Definition rec_err : Item :=
  mkItem "u1/shot.jpg" "u1" "2024-05-01T10:00:00"
         ["Person"; "Error Message"] "shot.jpg" "Unknown".

Definition table_err : Table := [("u1/shot.jpg", rec_err)].

Definition labels_err : list Label :=
  [mkLabel "Person" 97; mkLabel "Error Message" 91; mkLabel "Computer" 88].


Definition detector_err : Detector := fun _ => Ok labels_err.


Definition detector_down : Detector := fun _ => Raise DetectionError.

Definition state0 : State :=
  mkState "/srv/app" [("/home/u/photo_error.png", "PNG-bytes")] [].

(** Apostrophes turned into double quotes, to write JSON text down. *)
Fixpoint requote (s : string) : string :=
  match s with
  | EmptyString => EmptyString
  | String c r =>
      String (if Ascii.eqb c "'" then "034"%char else c) (requote r)
  end.

Definition db_file0 : string := DB_FILE state0.

Definition fs_old : FS := MockDynamoDB._save db_file0 table_err [].

Definition table_new : Table := Dict.set (photo_id rec_png) rec_png table_err.

Definition fs_torn : FS := apply_op fs_old (OpenTruncate db_file0).

(* ------------------------------------------------------------------ *)
(** ** Further predicates and inputs *)

(** The test of [search] on one record, as a boolean. *)
Definition item_matchb (query_tokens : list string) (item : Item) : bool :=
  existsb
    (fun token =>
       (PyStr.list_in token (map PyStr.lower (tags item))
        || PyStr.str_in token (PyStr.lower (photo_id item)))%bool)
    query_tokens.

(** Every character is whitespace for [str.split]. *)
Fixpoint all_space (s : string) : bool :=
  match s with
  | EmptyString => true
  | String c r => (PyStr.isspace c && all_space r)%bool
  end.

(** Every character is JSON whitespace. *)
Fixpoint json_blank (s : string) : bool :=
  match s with
  | EmptyString => true
  | String c r => (Json.is_ws c && json_blank r)%bool
  end.

(** The last item of a list put under a given id. *)
Fixpoint last_put (pid : string) (items : list Item) : option Item :=
  match items with
  | [] => None
  | item :: rest =>
      match last_put pid rest with
      | Some later => Some later
      | None => if String.eqb (photo_id item) pid then Some item else None
      end
  end.

Definition rec_png2 : Item :=
  mkItem "u1/a.png" "u1" "2024-05-03T08:00:00" ["Indoor"] "a.png" "Unknown".

Definition state_job : State :=
  mkState "/srv/app" [("/home/u/login_error.png", "PNG-bytes")] [].

(** What [os.path.join] puts between a directory and a relative path. *)
Definition join_sep (a : string) : string :=
  if (String.eqb a EmptyString || PyStr.endswith_char a PosixPath.sep)%bool
  then EmptyString else "/".

Definition state_two : State :=
  mkState "/srv/app"
    [("/home/u/photo_error.png", "PNG-bytes"); ("/home/u/b.png", "B-bytes")]
    [].

(* ------------------------------------------------------------------ *)
(** ** [main] *)

(** [s.endswith(suffix)] *)
Fixpoint str_endswith (s suffix : string) : bool :=
  if String.eqb s suffix then true
  else
    match s with
    | EmptyString => false
    | String _ r => str_endswith r suffix
    end.

(** [with open(path, 'w') as f: f.write(data)] *)
Definition write_text (fs : FS) (path data : string) : FS :=
  run_ops fs [OpenTruncate path; Flush path data].

(** The loop of [main] over [image_files[:3]].  The [k]-th call of
    [upload_and_process] reads the clock as [nows k] and draws its
    confidences from [uniform k]; the user id is the default one. *)
Fixpoint process_images (nows : nat -> string) (uniform : nat -> nat -> Q)
    (k : nat) (current_dir : string) (images : list string) : M unit :=
  match images with
  | [] => ret tt
  | img :: rest =>
      let full_path := PosixPath.join current_dir img in
      (_ <- PhotoOrganizerSystem.upload_and_process
              (MockRekognition.detector (uniform k)) (nows k) full_path
              PhotoOrganizerSystem.default_user_id ;;
       process_images nows uniform (S k) current_dir rest)%M
  end.

(** [main()].  [listing] is what [os.listdir(current_dir)] returns; the
    working directory is the one [BASE_DIR] was read from, and a
    relative path is resolved against it.  The table of the state
    [main] starts in is not read: the system is built first. *)
Definition main (listing : list string) (nows : nat -> string)
    (uniform : nat -> nat -> Q) : M unit :=
  fun st0 =>
    match PhotoOrganizerSystem.__init__ (BASE_DIR st0) (files st0) with
    | Raise e => (Raise e, st0)
    | Ok system =>
        let current_dir := BASE_DIR system in
        let image_files :=
          filter (fun f => str_endswith f ".png") listing in
        let '(image_files, system) :=
          match image_files with
          | [] =>
              (["test_image_dummy.png"],
               mkState (BASE_DIR system)
                 (write_text (files system)
                    (PosixPath.join current_dir "test_image_dummy.png")
                    "dummy image content")
                 (db_table system))
          | _ :: _ => (image_files, system)
          end in
        (_ <- process_images nows uniform 0 current_dir
                (firstn 3 image_files) ;;
         _ <- PhotoOrganizerSystem.search_photos "error" ;;
         _ <- PhotoOrganizerSystem.search_photos "search" ;;
         _ <- PhotoOrganizerSystem.search_photos "login" ;;
         ret tt)%M system
    end.

(** The record [main] leaves for an image: stored under
    [user_123/name], with that file name and that user. *)
Definition ingested (table : Table) (img : string) : Prop :=
  exists r : Item,
    MockDynamoDB.get_item table ("user_123/" ++ img) = Some r
    /\ photo_id r = ("user_123/" ++ img)%string
    /\ original_filename r = img
    /\ user_id r = "user_123".

Definition world_pngs : State :=
  mkState "/home/u"
    [("/home/u/a.png", "A"); ("/home/u/notes.txt", "N");
     ("/home/u/job_login.png", "B"); ("/home/u/c.png", "C");
     ("/home/u/d.png", "D")]
    [].

Definition world_empty : State := mkState "/home/u" [] [].

(** *** A snapshot that stores a record under another key than its id *)








(* ------------------------------------------------------------------ *)
(** ** Strings *)

Lemma append_nil_r (s : string) : (s ++ "")%string = s.
Proof. induction s as [|c s IH]; simpl; [reflexivity | now rewrite IH]. Qed.

Lemma append_assoc (a b c : string) :
  ((a ++ b) ++ c)%string = (a ++ (b ++ c))%string.
Proof. induction a as [|x a IH]; simpl; [reflexivity | now rewrite IH]. Qed.

Lemma length_append (a b : string) :
  String.length (a ++ b) = String.length a + String.length b.
Proof. induction a as [|x a IH]; simpl; [reflexivity | now rewrite IH]. Qed.

Lemma prefix_iff (p s : string) :
  String.prefix p s = true <-> exists post, s = (p ++ post)%string.
Proof.
  revert s; induction p as [|c p IH]; intros s.
  - destruct s; simpl; split; intros _; eauto.
  - destruct s as [|d s]; simpl.
    + split; [discriminate | intros [post H]; discriminate].
    + destruct (ascii_dec c d) as [->|Hne].
      * rewrite IH. split; intros [post H]; exists post.
        -- now rewrite H.
        -- now inversion H.
      * split; [discriminate | intros [post H]; inversion H; congruence].
Qed.

Lemma str_in_unfold (sub s : string) :
  PyStr.str_in sub s
  = if String.prefix sub s then true
    else match s with
         | EmptyString => false
         | String _ r => PyStr.str_in sub r
         end.
Proof. destruct s; reflexivity. Qed.

Lemma str_in_iff (sub s : string) :
  PyStr.str_in sub s = true <-> substring_of sub s.
Proof.
  unfold substring_of.
  induction s as [|c s IH]; rewrite str_in_unfold.
  - destruct (String.prefix sub "") eqn:E.
    + split; [intros _ | reflexivity].
      apply prefix_iff in E. destruct E as [post E]. now exists "", post.
    + split; [discriminate|].
      intros [pre [post H]]. destruct pre; [|discriminate].
      simpl in H.
      assert (String.prefix sub "" = true) by (apply prefix_iff; eauto).
      congruence.
  - destruct (String.prefix sub (String c s)) eqn:E.
    + split; [intros _ | reflexivity].
      apply prefix_iff in E. destruct E as [post E]. now exists "", post.
    + rewrite IH. split.
      * intros [pre [post H]]. exists (String c pre), post. simpl. now rewrite H.
      * intros [pre [post H]]. destruct pre as [|d pre].
        -- simpl in H.
           assert (String.prefix sub (String c s) = true)
             by (apply prefix_iff; eauto).
           congruence.
        -- simpl in H. inversion H. eauto.
Qed.

Lemma list_in_iff (x : string) (l : list string) :
  PyStr.list_in x l = true <-> In x l.
Proof.
  induction l as [|y l IH]; simpl.
  - split; [discriminate | tauto].
  - destruct (String.eqb_spec x y) as [->|Hne].
    + split; auto.
    + rewrite IH. split; [auto | intros [H|H]; [congruence | exact H]].
Qed.

(* ------------------------------------------------------------------ *)
(** ** The search engine *)

Lemma match_loop_iff (query_tokens item_tags : list string) (item_id : string) :
  MockOpenSearch.match_loop query_tokens item_tags item_id = true
  <-> exists token, In token query_tokens
        /\ (In token item_tags \/ substring_of token item_id).
Proof.
  induction query_tokens as [|t ts IH]; simpl.
  - split; [discriminate | intros [? [[] _]]].
  - destruct (PyStr.list_in t item_tags || PyStr.str_in t item_id)%bool eqn:E.
    + split; [intros _ | reflexivity].
      exists t. split; [now left|].
      apply orb_true_iff in E.
      rewrite list_in_iff, str_in_iff in E. exact E.
    + rewrite IH. apply orb_false_iff in E. destruct E as [E1 E2].
      split.
      * intros [token [Hin H]]. exists token. split; [now right | exact H].
      * intros [token [[->|Hin] H]]; [|now exists token].
        exfalso. destruct H as [H|H].
        -- apply list_in_iff in H. congruence.
        -- apply str_in_iff in H. congruence.
Qed.

Lemma search_loop_iff (query_tokens : list string) (all_items : list Item)
    (item : Item) :
  In item (MockOpenSearch.search_loop query_tokens all_items)
  <-> In item all_items /\ code_matches query_tokens item.
Proof.
  unfold code_matches.
  induction all_items as [|x xs IH]; simpl.
  - tauto.
  - destruct (MockOpenSearch.match_loop query_tokens
                (map PyStr.lower (tags x)) (PyStr.lower (photo_id x))) eqn:E.
    + simpl. rewrite IH. apply match_loop_iff in E.
      split.
      * intros [->|[H1 H2]]; auto.
      * intros [[->|H1] H2]; auto.
    + rewrite IH. split.
      * intros [H1 H2]; auto.
      * intros [[->|H1] H2]; auto.
        apply match_loop_iff in H2. congruence.
Qed.

Lemma search_loop_no_tokens (all_items : list Item) :
  MockOpenSearch.search_loop [] all_items = [].
Proof. induction all_items as [|x xs IH]; simpl; auto. Qed.

Lemma search_loop_sublist (query_tokens : list string) (all_items : list Item) :
  MockOpenSearch.search_loop query_tokens all_items
  = filter (fun item =>
              MockOpenSearch.match_loop query_tokens
                (map PyStr.lower (tags item)) (PyStr.lower (photo_id item)))
           all_items.
Proof.
  induction all_items as [|x xs IH]; simpl; [reflexivity|].
  rewrite IH. reflexivity.
Qed.

Lemma search_iff (table : Table) (query_text : string) (item : Item) :
  In item (MockOpenSearch.search table query_text)
  <-> In item (MockDynamoDB.scan table)
      /\ code_matches (query_tokens_of query_text) item.
Proof. unfold MockOpenSearch.search. apply search_loop_iff. Qed.

Lemma isspace_lower_char (c : ascii) :
  PyStr.isspace (PyStr.lower_char c) = PyStr.isspace c.
Proof. destruct c as [[] [] [] [] [] [] [] []]; reflexivity. Qed.

Lemma no_space_lower (s : string) : no_space (PyStr.lower s) = no_space s.
Proof.
  induction s as [|c s IH]; simpl; [reflexivity|].
  now rewrite isspace_lower_char, IH.
Qed.

Lemma one_word_lower (s : string) : one_word (PyStr.lower s) = one_word s.
Proof. destruct s as [|c s]; [reflexivity|]. apply (no_space_lower (String c s)). Qed.

Lemma split_one_word (s : string) :
  one_word s = true -> PyStr.split s = [s].
Proof.
  induction s as [|c s IH]; [discriminate|].
  intros H. simpl in H. apply andb_true_iff in H. destruct H as [Hc Hs].
  apply negb_true_iff in Hc.
  destruct s as [|d s'].
  - simpl. now rewrite Hc.
  - assert (Hd : PyStr.isspace d = false).
    { simpl in Hs. apply andb_true_iff in Hs. destruct Hs as [Hd _].
      now apply negb_true_iff in Hd. }
    change (PyStr.split (String c (String d s')))
      with (if PyStr.isspace c then PyStr.split (String d s')
            else if PyStr.isspace d
                 then String c EmptyString :: PyStr.split (String d s')
                 else match PyStr.split (String d s') with
                      | w :: ws => String c w :: ws
                      | [] => [String c EmptyString]
                      end).
    rewrite Hc, Hd, (IH Hs). reflexivity.
Qed.

(** Every token [str.split] returns is one word. *)
Lemma split_tokens_one_word (s token : string) :
  In token (PyStr.split s) -> one_word token = true.
Proof.
  revert token. induction s as [|c s IH]; intros token; [intros []|].
  destruct s as [|d s'].
  - simpl. destruct (PyStr.isspace c) eqn:Hc; [intros []|].
    intros [<-|[]]. simpl. now rewrite Hc.
  - change (PyStr.split (String c (String d s')))
      with (if PyStr.isspace c then PyStr.split (String d s')
            else if PyStr.isspace d
                 then String c EmptyString :: PyStr.split (String d s')
                 else match PyStr.split (String d s') with
                      | w :: ws => String c w :: ws
                      | [] => [String c EmptyString]
                      end).
    destruct (PyStr.isspace c) eqn:Hc; [apply IH|].
    destruct (PyStr.isspace d) eqn:Hd.
    + intros [<-|H]; [simpl; now rewrite Hc | now apply IH].
    + destruct (PyStr.split (String d s')) as [|w ws] eqn:E.
      * intros [<-|[]]. simpl. now rewrite Hc.
      * intros [<-|H].
        -- assert (Hw : one_word w = true) by (apply IH; now left).
           simpl. rewrite Hc. simpl.
           destruct w; [discriminate | exact Hw].
        -- apply IH. now right.
Qed.

Lemma lower_append (a b : string) :
  PyStr.lower (a ++ b) = (PyStr.lower a ++ PyStr.lower b)%string.
Proof. induction a as [|c a IH]; simpl; [reflexivity | now rewrite IH]. Qed.

(** The first piece [s.split(sep)] returns starts [s]. *)
Lemma split_on_head (sep : ascii) (s : string) :
  exists w ws post,
    PyStr.split_on sep s = w :: ws /\ s = (w ++ post)%string.
Proof.
  induction s as [|c r IH]; simpl.
  - exists EmptyString, [], EmptyString. auto.
  - destruct (Ascii.eqb c sep).
    + exists EmptyString, (PyStr.split_on sep r), (String c r). auto.
    + destruct IH as [w [ws [post [-> Hr]]]].
      exists (String c w), ws, post. simpl. now rewrite <- Hr.
Qed.

(** Every piece [s.split(sep)] returns occurs in [s]. *)
Lemma split_on_substring (sep : ascii) (s seg : string) :
  In seg (PyStr.split_on sep s) -> substring_of seg s.
Proof.
  revert seg. induction s as [|c r IH]; intros seg; simpl.
  - intros [<-|[]]. now exists EmptyString, EmptyString.
  - destruct (Ascii.eqb c sep).
    + intros [<-|H].
      * now exists EmptyString, (String c r).
      * destruct (IH seg H) as [pre [post Hr]].
        exists (String c pre), post. simpl. now rewrite <- Hr.
    + destruct (split_on_head sep r) as [w [ws [post [E Hr]]]].
      rewrite E in *. intros [<-|H].
      * exists EmptyString, post. simpl. now rewrite <- Hr.
      * destruct (IH seg (or_intror H)) as [pre [post' Hr']].
        exists (String c pre), post'. simpl. now rewrite <- Hr'.
Qed.

(** A match by the rule of the specification is a match for the code:
    a whole path segment of the id is a substring of the id. *)
Lemma spec_matches_code_matches (query_tokens : list string) (item : Item) :
  spec_matches query_tokens item -> code_matches query_tokens item.
Proof.
  intros [token [Htok [H|H]]]; exists token; (split; [exact Htok|]).
  - now left.
  - right. apply in_map_iff in H. destruct H as [seg [<- Hseg]].
    destruct (split_on_substring _ _ _ Hseg) as [pre [post E]].
    exists (PyStr.lower pre), (PyStr.lower post).
    now rewrite E, !lower_append.
Qed.

(* ------------------------------------------------------------------ *)
(** ** Claims about search *)

(** C8: on every table, [search("")] returns the empty list: the empty
    query has no token and so matches no record. *)
Theorem C8_empty_query_matches_nothing (table : Table) :
  query_tokens_of "" = []
  /\ MockOpenSearch.search table "" = []
  /\ (forall item, ~ In item (MockOpenSearch.search table "")).
Proof.
  assert (H : MockOpenSearch.search table "" = [])
    by apply search_loop_no_tokens.
  repeat split; [exact H|]. intros item. rewrite H. intros [].
Qed.

(** C9: a stored record is returned as soon as one token of the query
    occurs as a contiguous substring of the record's lower-cased id,
    whatever its tags and the segments of its id are. *)
Theorem C9_id_substring_matches (table : Table) (query_text : string)
    (item : Item) (token : string) :
  In item (MockDynamoDB.scan table) ->
  In token (query_tokens_of query_text) ->
  substring_of token (PyStr.lower (photo_id item)) ->
  In item (MockOpenSearch.search table query_text).
Proof.
  intros Hin Htok Hsub. apply search_iff. split; [exact Hin|].
  exists token. split; [exact Htok | now right].
Qed.

Lemma C9_witness :
  In rec_png (MockDynamoDB.scan table_png)
  /\ In "png" (query_tokens_of "png")
  /\ substring_of "png" (PyStr.lower (photo_id rec_png))
  /\ ~ In "png" (map PyStr.lower (tags rec_png))
  /\ ~ In "png" (map PyStr.lower
                   (PyStr.split_on PosixPath.sep (photo_id rec_png)))
  /\ In rec_png (MockOpenSearch.search table_png "png").
Proof.
  assert (H1 : In rec_png (MockDynamoDB.scan table_png))
    by (left; reflexivity).
  assert (H2 : In "png" (query_tokens_of "png")) by (left; reflexivity).
  assert (H3 : substring_of "png" (PyStr.lower (photo_id rec_png)))
    by (exists "u1/a.", ""; reflexivity).
  split; [exact H1|]. split; [exact H2|]. split; [exact H3|].
  split; [simpl; intros [H|[]]; discriminate|].
  split; [simpl; intros [H|[H|[]]]; discriminate|].
  exact (C9_id_substring_matches table_png "png" rec_png "png" H1 H2 H3).
Defined.

(** C1, as the specification states it, fails: the query [png] returns
    the record [u1/a.png] although [png] equals none of its tags and
    neither segment, [u1] or [a.png], of its id. *)
Lemma C1_counterexample :
  In rec_png (MockOpenSearch.search table_png "png")
  /\ ~ spec_matches (query_tokens_of "png") rec_png.
Proof.
  split; [left; reflexivity|].
  intros [token [Htok H]].
  destruct Htok as [<-|[]].
  destruct H as [H|H]; simpl in H.
  - destruct H as [H|[]]; discriminate.
  - destruct H as [H|[H|[]]]; discriminate.
Qed.

(** C1, amended: search returns exactly the stored records for which
    some query token equals a lower-cased tag or occurs as a contiguous
    substring of the lower-cased id. *)
Theorem C1_search_matches_by_substring (table : Table) (query_text : string)
    (item : Item) :
  In item (MockOpenSearch.search table query_text)
  <-> In item (MockDynamoDB.scan table)
      /\ exists token : string,
           In token (PyStr.split (PyStr.lower query_text))
           /\ (In token (map PyStr.lower (tags item))
               \/ exists pre post : string,
                    PyStr.lower (photo_id item)
                    = (pre ++ token ++ post)%string).
Proof. apply search_iff. Qed.

(** C4, as the specification states it, fails: the record tagged
    [Error Message] is not returned for the query [message]. *)
Lemma C4_counterexample :
  In rec_err (MockDynamoDB.scan table_err)
  /\ tag_token "message" rec_err
  /\ ~ In rec_err (MockOpenSearch.search table_err "message").
Proof.
  split; [left; reflexivity|]. split.
  - exists "Error Message". split; [right; left; reflexivity|].
    right. right. left. reflexivity.
  - intros [].
Qed.

(** C4, amended: a stored record is returned for a query [T] that is one
    word (not empty, no whitespace) and equals, case-insensitively, a
    whole entry of the record's tags. *)
Theorem C4_whole_tag_matches (table : Table) (R : Item) (T tag : string) :
  In R (MockDynamoDB.scan table) ->
  In tag (tags R) ->
  PyStr.lower tag = PyStr.lower T ->
  one_word T = true ->
  In R (MockOpenSearch.search table T).
Proof.
  intros Hin Htag Heq Hone. apply search_iff. split; [exact Hin|].
  exists (PyStr.lower T). split.
  - unfold query_tokens_of. rewrite split_one_word; [now left|].
    now rewrite one_word_lower.
  - left. rewrite <- Heq. now apply in_map.
Qed.

Lemma C4_witness :
  In rec_err (MockDynamoDB.scan table_err)
  /\ In "Person" (tags rec_err)
  /\ PyStr.lower "Person" = PyStr.lower "PERSON"
  /\ one_word "PERSON" = true
  /\ In rec_err (MockOpenSearch.search table_err "PERSON").
Proof.
  assert (H1 : In rec_err (MockDynamoDB.scan table_err))
    by (left; reflexivity).
  assert (H2 : In "Person" (tags rec_err)) by (left; reflexivity).
  assert (H3 : PyStr.lower "Person" = PyStr.lower "PERSON") by reflexivity.
  assert (H4 : one_word "PERSON" = true) by reflexivity.
  repeat (split; [assumption|]).
  exact (C4_whole_tag_matches table_err rec_err "PERSON" "Person" H1 H2 H3 H4).
Defined.

(* ------------------------------------------------------------------ *)
(** ** Dictionaries *)

Lemma NoDup_snoc {A : Type} (l : list A) (a : A) :
  NoDup l -> ~ In a l -> NoDup (l ++ [a]).
Proof.
  induction l as [|x l IH]; simpl; intros Hnd Hout.
  - constructor; [intros [] | constructor].
  - inversion Hnd; subst. constructor.
    + intros Hin. apply in_app_or in Hin. destruct Hin as [Hin|[->|[]]]; tauto.
    + apply IH; tauto.
Qed.

Section DictFacts.
Context {V : Type}.
Implicit Types (d : Dict.t V) (k : string) (v : V).

Lemma get_set_same k v d : Dict.get k (Dict.set k v d) = Some v.
Proof.
  induction d as [|[k' v'] d IH]; simpl.
  - now rewrite String.eqb_refl.
  - destruct (String.eqb k k') eqn:E; simpl.
    + now rewrite String.eqb_refl.
    + now rewrite E.
Qed.

Lemma get_set_other k k' v d :
  k' <> k -> Dict.get k' (Dict.set k v d) = Dict.get k' d.
Proof.
  intros Hne. induction d as [|[k0 v0] d IH]; simpl.
  - apply String.eqb_neq in Hne. now rewrite Hne.
  - destruct (String.eqb_spec k k0) as [->|Hk]; simpl.
    + apply String.eqb_neq in Hne. now rewrite Hne.
    + now rewrite IH.
Qed.


Lemma get_in_values k v d : Dict.get k d = Some v -> In v (Dict.values d).
Proof.
  induction d as [|[k' v'] d IH]; simpl; [discriminate|].
  destruct (String.eqb k k'); [intros [= ->]; now left | auto].
Qed.


Lemma set_absent k v d :
  ~ In k (Dict.keys d) -> Dict.set k v d = d ++ [(k, v)].
Proof.
  induction d as [|[k' v'] d IH]; simpl; [reflexivity|].
  intros H. destruct (String.eqb_spec k k') as [->|Hne]; [tauto|].
  rewrite IH; tauto.
Qed.

Lemma keys_set_present k v d :
  In k (Dict.keys d) -> Dict.keys (Dict.set k v d) = Dict.keys d.
Proof.
  induction d as [|[k' v'] d IH]; simpl; [tauto|].
  destruct (String.eqb_spec k k') as [->|Hne]; [reflexivity|].
  intros [E|E]; [congruence|]. simpl. now rewrite (IH E).
Qed.

Lemma wf_set k v d : Dict.wf d -> Dict.wf (Dict.set k v d).
Proof.
  unfold Dict.wf. intros H.
  destruct (in_dec string_dec k (Dict.keys d)) as [Hin|Hout].
  - now rewrite keys_set_present.
  - rewrite set_absent by exact Hout. unfold Dict.keys.
    rewrite map_app. simpl.
    now apply NoDup_snoc.
Qed.


Lemma fold_set_fresh (l : list (string * V)) d :
  NoDup (Dict.keys d ++ map fst l) ->
  fold_left (fun acc kv => Dict.set (fst kv) (snd kv) acc) l d = d ++ l.
Proof.
  revert d. induction l as [|[k v] l IH]; intros d H; simpl.
  - now rewrite app_nil_r.
  - simpl in H. rewrite set_absent.
    + rewrite IH.
      * now rewrite <- app_assoc.
      * unfold Dict.keys. rewrite map_app. simpl.
        rewrite <- app_assoc. exact H.
    + intros Hin. apply NoDup_remove_2 in H. apply H.
      apply in_or_app. now left.
Qed.

Lemma of_pairs_wf (l : list (string * V)) : Dict.wf l -> Dict.of_pairs l = l.
Proof. intros H. unfold Dict.of_pairs. now rewrite fold_set_fresh. Qed.

Lemma fold_set_wf (l : list (string * V)) d :
  Dict.wf d ->
  Dict.wf (fold_left (fun acc kv => Dict.set (fst kv) (snd kv) acc) l d).
Proof.
  revert d. induction l as [|[k v] l IH]; intros d H; simpl; [exact H|].
  apply IH. now apply wf_set.
Qed.

Lemma wf_of_pairs (l : list (string * V)) : Dict.wf (Dict.of_pairs l).
Proof. apply fold_set_wf. constructor. Qed.

End DictFacts.

(* ------------------------------------------------------------------ *)
(** ** The table invariant *)

Lemma table_ok_empty : table_ok Dict.empty.
Proof. split; constructor. Qed.

Lemma table_ok_set (table : Table) (item : Item) :
  table_ok table -> table_ok (Dict.set (photo_id item) item table).
Proof.
  intros [Hwf Hid]. split; [now apply wf_set|].
  clear Hwf. induction table as [|[k v] t IH]; simpl.
  - now repeat constructor.
  - pose proof (Forall_inv Hid) as Hk.
    pose proof (Forall_inv_tail Hid) as Hid'.
    destruct (String.eqb (photo_id item) k); constructor; auto.
Qed.



(* ------------------------------------------------------------------ *)
(** ** The ingestion pipeline *)

(** The three ways a call of [upload_and_process] ends. *)
Lemma upload_and_process_unfold (rekognition : Detector)
    (now file_path uid : string) (st : State) :
  PhotoOrganizerSystem.upload_and_process rekognition now file_path uid st
  = match MockS3.upload_file (S3_BUCKET_DIR st) file_path
            (s3_key_of file_path uid) (files st) with
    | Raise e => (Raise e, st)
    | Ok (_, fs') =>
        match rekognition (s3_key_of file_path uid) with
        | Raise e => (Raise e, mkState (BASE_DIR st) fs' (db_table st))
        | Ok labels_data =>
            let item := metadata_of now file_path uid labels_data in
            let table' := Dict.set (photo_id item) item (db_table st) in
            (Ok item,
             mkState (BASE_DIR st)
                     (MockDynamoDB._save (DB_FILE st) table' fs') table')
        end
    end.
Proof.
  unfold PhotoOrganizerSystem.upload_and_process, bind,
    PhotoOrganizerSystem.s3_upload_file, lift,
    PhotoOrganizerSystem.db_put_item, ret, s3_key_of.
  destruct (MockS3.upload_file _ _ _ _) as [[dest fs']|e]; [|reflexivity].
  destruct (rekognition _) as [labels_data|e]; reflexivity.
Qed.


(** The detector of the prototype never raises. *)
Lemma mock_detector_returns (uniform : nat -> Q) (image_key : string) :
  MockRekognition.detector uniform image_key
  = Ok (MockRekognition.detect_labels uniform image_key).
Proof. reflexivity. Qed.

(** Whatever way a call ends, the table stays keyed by [photo_id]. *)
Lemma upload_and_process_table_ok (rekognition : Detector)
    (now file_path uid : string) (st : State) :
  table_ok (db_table st) ->
  table_ok
    (db_table
       (snd (PhotoOrganizerSystem.upload_and_process rekognition now
               file_path uid st))).
Proof.
  intros Hok. rewrite upload_and_process_unfold.
  destruct (MockS3.upload_file _ _ _ _) as [[dest fs']|e]; [|exact Hok].
  destruct (rekognition _) as [labels_data|e]; [|exact Hok].
  simpl. apply (table_ok_set (db_table st)
                  (metadata_of now file_path uid labels_data) Hok).
Qed.

(** C2: when the detector raises, [upload_and_process] raises, the table
    of the store is the one before the call, and so is the result of
    [get_item] for every id. *)
Theorem C2_detector_failure_writes_nothing (rekognition : Detector)
    (now file_path uid : string) (st : State) (e : exn) :
  rekognition (s3_key_of file_path uid) = Raise e ->
  let run :=
    PhotoOrganizerSystem.upload_and_process rekognition now file_path uid st in
  (exists e', fst run = Raise e')
  /\ db_table (snd run) = db_table st
  /\ (forall pid,
        MockDynamoDB.get_item (db_table (snd run)) pid
        = MockDynamoDB.get_item (db_table st) pid)
  /\ (forall dest fs',
        MockS3.upload_file (S3_BUCKET_DIR st) file_path
          (s3_key_of file_path uid) (files st) = Ok (dest, fs') ->
        fst run = Raise e /\ files (snd run) = fs').
Proof.
  intros Hrek run. subst run. rewrite upload_and_process_unfold.
  destruct (MockS3.upload_file _ _ _ _) as [[dest fs']|e0].
  - rewrite Hrek. simpl.
    split; [eauto|]. split; [reflexivity|]. split; [reflexivity|].
    intros d f [= _ <-]. split; reflexivity.
  - simpl.
    split; [eauto|]. split; [reflexivity|]. split; [reflexivity|].
    intros d f; discriminate.
Qed.

Lemma C2_witness :
  detector_down (s3_key_of "/home/u/photo_error.png" "u1")
  = Raise DetectionError
  /\ fst (PhotoOrganizerSystem.upload_and_process detector_down
            "2024-05-01T10:00:00" "/home/u/photo_error.png" "u1" state0)
     = Raise DetectionError
  /\ db_table
       (snd (PhotoOrganizerSystem.upload_and_process detector_down
               "2024-05-01T10:00:00" "/home/u/photo_error.png" "u1" state0))
     = db_table state0.
Proof.
  assert (H : detector_down (s3_key_of "/home/u/photo_error.png" "u1")
              = Raise DetectionError) by reflexivity.
  pose proof (C2_detector_failure_writes_nothing detector_down
                "2024-05-01T10:00:00" "/home/u/photo_error.png" "u1"
                state0 DetectionError H) as [_ [Htable _]].
  split; [exact H|]. split; [reflexivity | exact Htable].
Defined.

(* ------------------------------------------------------------------ *)
(** ** [os.path.basename] *)

Lemma not_substring_cons (c sep : ascii) (r : string) :
  c <> sep ->
  ~ substring_of (String sep "") r ->
  ~ substring_of (String sep "") (String c r).
Proof.
  intros Hc Hr [pre [post H]]. destruct pre as [|d pre]; simpl in H.
  - inversion H. congruence.
  - inversion H. apply Hr. now exists pre, post.
Qed.

Lemma endswith_char_cons (c sep : ascii) (s : string) :
  PyStr.endswith_char s sep = true ->
  PyStr.endswith_char (String c s) sep = true.
Proof. destruct s; [discriminate | auto]. Qed.

(** [p[p.rfind(sep)+1:]] is what follows the last separator of [p]. *)
Lemma rfind_succ_spec (sep : ascii) (p : string) :
  exists dir : string,
    p = (dir ++ PyStr.slice_from (PyStr.rfind_succ sep p) p)%string
    /\ String.length dir = PyStr.rfind_succ sep p
    /\ (dir = EmptyString \/ PyStr.endswith_char dir sep = true)
    /\ ~ substring_of (String sep "")
           (PyStr.slice_from (PyStr.rfind_succ sep p) p).
Proof.
  induction p as [|c r IH]; simpl.
  - exists EmptyString. repeat split; auto.
    intros [pre [post H]]. destruct pre; discriminate.
  - destruct IH as [dir [Hp [Hlen [Hdir Hbase]]]].
    destruct (PyStr.rfind_succ sep r) as [|k] eqn:E.
    + destruct dir; [|discriminate]. simpl in Hbase.
      destruct (Ascii.eqb_spec c sep) as [->|Hne].
      * exists (String sep ""). simpl. repeat split; auto.
        right. apply Ascii.eqb_refl.
      * exists EmptyString. simpl. repeat split; auto.
        now apply not_substring_cons.
    + exists (String c dir). simpl. repeat split.
      * f_equal. exact Hp.
      * f_equal. exact Hlen.
      * right. destruct Hdir as [->|Hdir]; [discriminate|].
        now apply endswith_char_cons.
      * exact Hbase.
Qed.

Lemma basename_spec (p : string) :
  exists dir : string,
    p = (dir ++ PosixPath.basename p)%string
    /\ (dir = EmptyString \/ PyStr.endswith_char dir PosixPath.sep = true)
    /\ ~ substring_of "/" (PosixPath.basename p).
Proof.
  destruct (rfind_succ_spec PosixPath.sep p) as [dir [H1 [_ [H2 H3]]]].
  exists dir. auto.
Qed.

(** C10: [upload_and_process] takes a source path and a user id and no
    file name; whenever it stores a record, the record's
    [original_filename] is the final component of the source path (what
    follows its last [/]) and its id is the user id, [/] and that
    component. *)
Theorem C10_filename_is_basename (rekognition : Detector)
    (now file_path uid : string) (st st' : State) (item : Item) :
  PhotoOrganizerSystem.upload_and_process rekognition now file_path uid st
  = (Ok item, st') ->
  original_filename item = PosixPath.basename file_path
  /\ photo_id item = (uid ++ "/" ++ PosixPath.basename file_path)%string
  /\ user_id item = uid
  /\ MockDynamoDB.get_item (db_table st') (photo_id item) = Some item
  /\ (exists dir : string,
        file_path = (dir ++ original_filename item)%string
        /\ (dir = EmptyString
            \/ PyStr.endswith_char dir PosixPath.sep = true)
        /\ ~ substring_of "/" (original_filename item)).
Proof.
  rewrite upload_and_process_unfold.
  destruct (MockS3.upload_file _ _ _ _) as [[dest fs']|e]; [|discriminate].
  destruct (rekognition _) as [labels_data|e]; [|discriminate].
  intros [= <- <-]. simpl.
  repeat split; try reflexivity.
  - unfold MockDynamoDB.get_item. apply get_set_same.
  - apply basename_spec.
Qed.

Lemma C10_witness :
  PhotoOrganizerSystem.upload_and_process detector_err "2024-05-01T10:00:00"
    "/home/u/photo_error.png" "u1" state0
  = (Ok (metadata_of "2024-05-01T10:00:00" "/home/u/photo_error.png" "u1"
           labels_err),
     snd (PhotoOrganizerSystem.upload_and_process detector_err
            "2024-05-01T10:00:00" "/home/u/photo_error.png" "u1" state0))
  /\ original_filename
       (metadata_of "2024-05-01T10:00:00" "/home/u/photo_error.png" "u1"
          labels_err)
     = "photo_error.png"
  /\ photo_id
       (metadata_of "2024-05-01T10:00:00" "/home/u/photo_error.png" "u1"
          labels_err)
     = "u1/photo_error.png".
Proof.
  assert (H : PhotoOrganizerSystem.upload_and_process detector_err
                "2024-05-01T10:00:00" "/home/u/photo_error.png" "u1" state0
              = (Ok (metadata_of "2024-05-01T10:00:00"
                       "/home/u/photo_error.png" "u1" labels_err),
                 snd (PhotoOrganizerSystem.upload_and_process detector_err
                        "2024-05-01T10:00:00" "/home/u/photo_error.png"
                        "u1" state0)))
    by reflexivity.
  pose proof (C10_filename_is_basename _ _ _ _ _ _ _ H) as [H1 [H2 _]].
  split; [exact H|]. split; [exact H1 | exact H2].
Defined.

(** C5: the scenario of the specification.  The source file has the
    name [photo_error.png], the user is [u1], the detector answers with
    the labels Person, Error Message, Computer, and the call returns.
    Then [get_item("u1/photo_error.png")] is the stored record with
    exactly these tags, [search("error")] returns it and
    [search("login")] does not. *)
Theorem C5_scenario_photo_error (rekognition : Detector)
    (now file_path : string) (labels_data : list Label) (st st' : State)
    (item : Item) :
  PosixPath.basename file_path = "photo_error.png" ->
  rekognition "u1/photo_error.png" = Ok labels_data ->
  map Name labels_data = ["Person"; "Error Message"; "Computer"] ->
  PhotoOrganizerSystem.upload_and_process rekognition now file_path "u1" st
  = (Ok item, st') ->
  MockDynamoDB.get_item (db_table st') "u1/photo_error.png" = Some item
  /\ tags item = ["Person"; "Error Message"; "Computer"]
  /\ In item (MockOpenSearch.search (db_table st') "error")
  /\ ~ In item (MockOpenSearch.search (db_table st') "login").
Proof.
  intros Hbase Hrek Hnames.
  assert (Hkey : s3_key_of file_path "u1" = "u1/photo_error.png")
    by (unfold s3_key_of; now rewrite Hbase).
  rewrite upload_and_process_unfold, Hkey.
  destruct (MockS3.upload_file _ _ _ _) as [[dest fs']|e]; [|discriminate].
  rewrite Hrek. cbv zeta.
  set (item0 := metadata_of now file_path "u1" labels_data).
  assert (Hid : photo_id item0 = "u1/photo_error.png") by exact Hkey.
  assert (Htags : tags item0 = ["Person"; "Error Message"; "Computer"])
    by exact Hnames.
  rewrite Hid. intros [= <- <-]. cbn [db_table].
  assert (Hget : MockDynamoDB.get_item
                   (Dict.set "u1/photo_error.png" item0 (db_table st))
                   "u1/photo_error.png" = Some item0)
    by apply get_set_same.
  split; [exact Hget|]. split; [exact Htags|]. split.
  - apply search_iff. split; [exact (get_in_values _ _ _ Hget)|].
    exists "error". split; [left; reflexivity|].
    right. rewrite Hid. exists "u1/photo_", ".png". reflexivity.
  - intros Hin. apply search_iff in Hin. destruct Hin as [_ [token [Htok H]]].
    destruct Htok as [<-|[]].
    rewrite Htags, Hid in H. destruct H as [H|H].
    + simpl in H. destruct H as [H|[H|[H|[]]]]; discriminate.
    + apply str_in_iff in H. discriminate.
Qed.

Lemma C5_witness :
  MockDynamoDB.get_item
    (db_table
       (snd (PhotoOrganizerSystem.upload_and_process detector_err
               "2024-05-01T10:00:00" "/home/u/photo_error.png" "u1" state0)))
    "u1/photo_error.png"
  = Some (metadata_of "2024-05-01T10:00:00" "/home/u/photo_error.png" "u1"
            labels_err)
  /\ In (metadata_of "2024-05-01T10:00:00" "/home/u/photo_error.png" "u1"
           labels_err)
        (MockOpenSearch.search
           (db_table
              (snd (PhotoOrganizerSystem.upload_and_process detector_err
                      "2024-05-01T10:00:00" "/home/u/photo_error.png" "u1"
                      state0)))
           "error").
Proof.
  assert (H : PhotoOrganizerSystem.upload_and_process detector_err
                "2024-05-01T10:00:00" "/home/u/photo_error.png" "u1" state0
              = (Ok (metadata_of "2024-05-01T10:00:00"
                       "/home/u/photo_error.png" "u1" labels_err),
                 snd (PhotoOrganizerSystem.upload_and_process detector_err
                        "2024-05-01T10:00:00" "/home/u/photo_error.png"
                        "u1" state0)))
    by reflexivity.
  destruct (C5_scenario_photo_error detector_err "2024-05-01T10:00:00"
              "/home/u/photo_error.png" labels_err state0 _ _
              eq_refl eq_refl eq_refl H) as [Hget [_ [Hsearch _]]].
  split; [exact Hget | exact Hsearch].
Defined.




(* ------------------------------------------------------------------ *)
(** ** [json.load] after [json.dump] *)

Lemma rbind_ok {A B} (r : result A) (k : A -> result B) (a : A) :
  r = Ok a -> rbind r k = k a.
Proof. now intros ->. Qed.

(** Decoding the escape of one character. *)
Lemma scanstring_escape_char (c : ascii) (tail : string) :
  Json.scanstring (Json.escape_char c ++ tail)
  = rbind (Json.scanstring tail)
          (fun p => match p with (str, r) => Ok (String c str, r) end).
Proof. destruct c as [[] [] [] [] [] [] [] []]; reflexivity. Qed.

Lemma scanstring_escape (s rest : string) :
  Json.scanstring (Json.escape s ++ String "034" rest) = Ok (s, rest).
Proof.
  induction s as [|c s IH]; [reflexivity|].
  simpl Json.escape. rewrite append_assoc, scanstring_escape_char, IH.
  reflexivity.
Qed.

Lemma skip_ws_spaces (n : nat) (s : string) :
  Json.skip_ws (Json.spaces n ++ s) = Json.skip_ws s.
Proof. induction n as [|n IH]; [reflexivity | exact IH]. Qed.

Lemma skip_ws_newline_indent (level : nat) (s : string) :
  Json.skip_ws (Json.newline_indent level ++ s) = Json.skip_ws s.
Proof. unfold Json.newline_indent. simpl. apply skip_ws_spaces. Qed.

Lemma starts_value_app (s t : string) :
  starts_value s -> starts_value (s ++ t).
Proof. intros [c [r [-> H]]]. exists c, (r ++ t)%string. auto. Qed.

Lemma encode_starts_value (level : nat) (v : Json.value) :
  starts_value (Json.encode level v).
Proof.
  destruct v as [s|[|x xs]|[|[k x] xs]]; simpl;
    eexists _, _; (split; [reflexivity | tauto]).
Qed.

Lemma skip_ws_value (s : string) : starts_value s -> Json.skip_ws s = s.
Proof. intros [c [r [-> [ -> | [ -> | -> ] ] ] ] ]; reflexivity. Qed.

(** One step of the decoder on each shape of text. *)
Lemma scan_once_string (f : nat) (r : string) :
  Json.scan_once (S f) (String "034" r)
  = rbind (Json.scanstring r)
          (fun p => match p with (str, r1) => Ok (Json.JStr str, r1) end).
Proof. reflexivity. Qed.

Lemma scan_once_bracket (f : nat) (r : string) :
  Json.scan_once (S f) (String "[" r)
  = match Json.skip_ws r with
    | EmptyString => Raise JSONDecodeError
    | String d r1 =>
        if Ascii.eqb d "]" then Ok (Json.JArr [], r1)
        else rbind (Json.parse_array f (String d r1))
               (fun p => match p with (l, r2) => Ok (Json.JArr l, r2) end)
    end.
Proof. reflexivity. Qed.

Lemma scan_once_brace (f : nat) (r : string) :
  Json.scan_once (S f) (String "{" r)
  = match Json.skip_ws r with
    | EmptyString => Raise JSONDecodeError
    | String d r1 =>
        if Ascii.eqb d "}" then Ok (Json.JObj [], r1)
        else rbind (Json.parse_object f (String d r1))
               (fun p => match p with (l, r2) => Ok (Json.JObj l, r2) end)
    end.
Proof. reflexivity. Qed.

Lemma parse_array_unfold (f : nat) (s : string) :
  Json.parse_array (S f) s
  = rbind (Json.scan_once f s)
      (fun p =>
         match p with
         | (v, r) =>
             match Json.skip_ws r with
             | EmptyString => Raise JSONDecodeError
             | String c r1 =>
                 if Ascii.eqb c "]" then Ok ([v], r1)
                 else if Ascii.eqb c "," then
                   rbind (Json.parse_array f (Json.skip_ws r1))
                     (fun q => match q with
                               | (vs, r2) => Ok (v :: vs, r2)
                               end)
                 else Raise JSONDecodeError
             end
         end).
Proof. reflexivity. Qed.

Lemma parse_object_unfold (f : nat) (r : string) :
  Json.parse_object (S f) (String "034" r)
  = rbind (Json.scanstring r)
      (fun p =>
         match p with
         | (key, r1) =>
             match Json.skip_ws r1 with
             | EmptyString => Raise JSONDecodeError
             | String c r2 =>
                 if Ascii.eqb c ":" then
                   rbind (Json.scan_once f (Json.skip_ws r2))
                     (fun q =>
                        match q with
                        | (v, r3) =>
                            match Json.skip_ws r3 with
                            | EmptyString => Raise JSONDecodeError
                            | String d r4 =>
                                if Ascii.eqb d "}" then Ok ([(key, v)], r4)
                                else if Ascii.eqb d "," then
                                  rbind (Json.parse_object f (Json.skip_ws r4))
                                    (fun q' =>
                                       match q' with
                                       | (ms, r5) => Ok ((key, v) :: ms, r5)
                                       end)
                                else Raise JSONDecodeError
                            end
                        end)
                 else Raise JSONDecodeError
             end
         end).
Proof. reflexivity. Qed.

Lemma scan_once_array (f level : nat) (X : string) :
  starts_value X ->
  Json.scan_once (S f) (String "[" (Json.newline_indent level ++ X))
  = rbind (Json.parse_array f X)
          (fun p => match p with (l, r2) => Ok (Json.JArr l, r2) end).
Proof.
  intros HX. rewrite scan_once_bracket.
  rewrite skip_ws_newline_indent, (skip_ws_value X HX).
  destruct HX as [c [r [-> [ -> | [ -> | -> ] ] ] ] ]; reflexivity.
Qed.

Lemma scan_once_object (f level : nat) (Y : string) :
  Json.scan_once (S f) (String "{" (Json.newline_indent level ++ String "034" Y))
  = rbind (Json.parse_object f (String "034" Y))
          (fun p => match p with (l, r2) => Ok (Json.JObj l, r2) end).
Proof.
  rewrite scan_once_brace, skip_ws_newline_indent. reflexivity.
Qed.

Lemma parse_array_last (f level : nat) (s rest : string) (v : Json.value) :
  Json.scan_once f s
  = Ok (v, (Json.newline_indent level ++ String "]" rest)%string) ->
  Json.parse_array (S f) s = Ok ([v], rest).
Proof.
  intros H. rewrite parse_array_unfold, H. unfold rbind at 1; cbv beta iota.
  rewrite skip_ws_newline_indent. reflexivity.
Qed.

Lemma parse_array_more (f level : nat) (s X : string) (v : Json.value) :
  starts_value X ->
  Json.scan_once f s = Ok (v, String "," (Json.newline_indent level ++ X)) ->
  Json.parse_array (S f) s
  = rbind (Json.parse_array f X)
          (fun p => match p with (vs, r2) => Ok (v :: vs, r2) end).
Proof.
  intros HX H. rewrite parse_array_unfold, H. unfold rbind at 1; cbv beta iota.
  change (Json.skip_ws (String "," (Json.newline_indent level ++ X)))
    with (String "," (Json.newline_indent level ++ X)).
  cbv iota beta.
  change (Ascii.eqb "," "]") with false.
  change (Ascii.eqb "," ",") with true. cbv iota.
  rewrite skip_ws_newline_indent, (skip_ws_value X HX).
  reflexivity.
Qed.

Lemma parse_object_key (f : nat) (k X : string) :
  starts_value X ->
  Json.parse_object (S f)
    (Json.encode_str k ++ String ":" (String " " X))
  = rbind (Json.scan_once f X)
      (fun q =>
         match q with
         | (v, r3) =>
             match Json.skip_ws r3 with
             | EmptyString => Raise JSONDecodeError
             | String d r4 =>
                 if Ascii.eqb d "}" then Ok ([(k, v)], r4)
                 else if Ascii.eqb d "," then
                   rbind (Json.parse_object f (Json.skip_ws r4))
                     (fun q' => match q' with
                                | (ms, r5) => Ok ((k, v) :: ms, r5)
                                end)
                 else Raise JSONDecodeError
             end
         end).
Proof.
  intros HX. unfold Json.encode_str.
  change (String "034" (Json.escape k ++ String "034" "")
          ++ String ":" (String " " X))%string
    with (String "034" ((Json.escape k ++ String "034" "")
                       ++ String ":" (String " " X)))%string.
  rewrite append_assoc.
  change (String "034" "" ++ String ":" (String " " X))%string
    with (String "034" (String ":" (String " " X))).
  rewrite parse_object_unfold, scanstring_escape. unfold rbind at 1; cbv beta iota.
  change (Json.skip_ws (String ":" (String " " X)))
    with (String ":" (String " " X)).
  cbv iota beta. change (Ascii.eqb ":" ":") with true. cbv iota.
  change (Json.skip_ws (String " " X)) with (Json.skip_ws X).
  rewrite (skip_ws_value X HX). reflexivity.
Qed.

Lemma encode_str_app (k Z : string) :
  (Json.encode_str k ++ Z)%string
  = String "034" (Json.escape k ++ String "034" Z).
Proof.
  unfold Json.encode_str.
  change (String "034" (Json.escape k ++ String "034" "") ++ Z)%string
    with (String "034" ((Json.escape k ++ String "034" "") ++ Z))%string.
  now rewrite append_assoc.
Qed.

Lemma encode_arr_app (level : nat) (x : Json.value) (xs : list Json.value)
    (rest : string) :
  (Json.encode level (Json.JArr (x :: xs)) ++ rest)%string
  = String "["
      (Json.newline_indent (S level)
       ++ Json.encode (S level) x
       ++ arr_more level xs
       ++ Json.newline_indent level ++ String "]" rest).
Proof. cbn [Json.encode]. rewrite !append_assoc. reflexivity. Qed.

Lemma encode_obj_app (level : nat) (k : string) (x : Json.value)
    (xs : list (string * Json.value)) (rest : string) :
  (Json.encode level (Json.JObj ((k, x) :: xs)) ++ rest)%string
  = String "{"
      (Json.newline_indent (S level)
       ++ Json.encode_str k
       ++ String ":" (String " "
            (Json.encode (S level) x
             ++ obj_more level xs
             ++ Json.newline_indent level ++ String "}" rest))).
Proof. cbn [Json.encode]. rewrite !append_assoc. reflexivity. Qed.

Lemma arr_more_cons_app (level : nat) (y : Json.value) (ys : list Json.value)
    (T : string) :
  (arr_more level (y :: ys) ++ T)%string
  = String ","
      (Json.newline_indent (S level)
       ++ Json.encode (S level) y ++ arr_more level ys ++ T).
Proof. cbn [Json.encode_more]. rewrite !append_assoc. reflexivity. Qed.

Lemma obj_more_cons_app (level : nat) (k : string) (y : Json.value)
    (ys : list (string * Json.value)) (T : string) :
  (obj_more level ((k, y) :: ys) ++ T)%string
  = String ","
      (Json.newline_indent (S level)
       ++ Json.encode_str k
       ++ String ":" (String " "
            (Json.encode (S level) y ++ obj_more level ys ++ T))).
Proof.
  cbn [Json.encode_more fst snd]. rewrite !append_assoc. reflexivity.
Qed.

(** The decoder reads back what the encoder wrote, whatever follows,
    once it may recurse as deep as the value is large. *)
Lemma decode_encode_fuel (fuel : nat) :
  (forall v level rest,
      Json.size v <= fuel ->
      Json.scan_once fuel (Json.encode level v ++ rest) = Ok (v, rest))
  /\ (forall x xs level rest,
        list_sum (map (fun x => S (Json.size x)) (x :: xs)) <= fuel ->
        Json.parse_array fuel
          (Json.encode (S level) x ++ arr_more level xs
           ++ Json.newline_indent level ++ String "]" rest)
        = Ok (x :: xs, rest))
  /\ (forall k x xs level rest,
        list_sum (map (fun kv => S (Json.size (snd kv))) ((k, x) :: xs))
        <= fuel ->
        Json.parse_object fuel
          (Json.encode_str k
           ++ String ":" (String " "
                (Json.encode (S level) x ++ obj_more level xs
                 ++ Json.newline_indent level ++ String "}" rest)))
        = Ok ((k, x) :: xs, rest)).
Proof.
  induction fuel as [|f [IHv [IHa IHo]]].
  - split; [|split].
    + intros [s|l|l] level rest H; simpl in H; lia.
    + intros x xs level rest H. simpl in H. lia.
    + intros k x xs level rest H. simpl in H. lia.
  - split; [|split].
    + intros [s|[|x xs]|[|[k x] xs]] level rest H.
      * cbn [Json.encode]. rewrite encode_str_app, scan_once_string.
        now rewrite scanstring_escape.
      * reflexivity.
      * rewrite encode_arr_app, scan_once_array.
        -- rewrite IHa; [reflexivity|]. simpl in H |- *. lia.
        -- apply starts_value_app, encode_starts_value.
      * reflexivity.
      * rewrite encode_obj_app, encode_str_app, scan_once_object.
        rewrite <- encode_str_app.
        rewrite IHo; [reflexivity|]. simpl in H |- *. lia.
    + intros x xs level rest H. simpl in H.
      assert (Hx : Json.scan_once f
                     (Json.encode (S level) x ++ arr_more level xs
                      ++ Json.newline_indent level ++ String "]" rest)
                   = Ok (x, (arr_more level xs
                             ++ Json.newline_indent level
                             ++ String "]" rest)%string))
        by (apply IHv; lia).
      destruct xs as [|y ys].
      * apply (parse_array_last f level). exact Hx.
      * rewrite arr_more_cons_app in Hx |- *.
        rewrite (parse_array_more f (S level) _ _ x
                   (starts_value_app _ _ (encode_starts_value _ y)) Hx).
        rewrite IHa; [reflexivity|]. simpl in H |- *. lia.
    + intros k x xs level rest H. simpl in H.
      rewrite parse_object_key
        by apply starts_value_app, encode_starts_value.
      rewrite IHv by lia. unfold rbind at 1. cbv beta iota.
      destruct xs as [|[k' y] ys].
      * change (obj_more level [] ++ Json.newline_indent level
                ++ String "}" rest)%string
          with (Json.newline_indent level ++ String "}" rest)%string.
        rewrite skip_ws_newline_indent. reflexivity.
      * rewrite obj_more_cons_app.
        change (Json.skip_ws (String "," ?z)) with (String "," z).
        cbv beta iota.
        change (Ascii.eqb "," "}") with false.
        change (Ascii.eqb "," ",") with true. cbv iota.
        rewrite skip_ws_newline_indent, encode_str_app.
        change (Json.skip_ws (String "034" ?z)) with (String "034" z).
        rewrite <- encode_str_app.
        rewrite IHo; [reflexivity|]. simpl in H |- *. lia.
Qed.

Lemma in_list_sum {A} (f : A -> nat) (l : list A) (y : A) :
  In y l -> f y <= list_sum (map f l).
Proof.
  induction l as [|x l IH]; simpl; [intros []|].
  intros [->|H]; [lia | specialize (IH H); lia].
Qed.

Lemma encode_more_length {A} (enc : A -> string) (sep : string)
    (sz : A -> nat) (l : list A) :
  (forall y, In y l -> sz y <= String.length (enc y)) ->
  list_sum (map (fun y => S (sz y)) l)
  <= String.length (Json.encode_more enc sep l).
Proof.
  induction l as [|y l IH]; intros H; simpl; [lia|].
  rewrite !length_append.
  assert (sz y <= String.length (enc y)) by (apply H; now left).
  assert (list_sum (map (fun y => S (sz y)) l)
          <= String.length (Json.encode_more enc sep l))
    by (apply IH; intros z Hz; apply H; now right).
  lia.
Qed.

Lemma size_le_length (n : nat) :
  forall v level,
    Json.size v <= n -> Json.size v <= String.length (Json.encode level v).
Proof.
  induction n as [|n IH]; intros v level Hn.
  - destruct v; simpl in Hn; lia.
  - destruct v as [s|[|x xs]|[|[k x] xs]].
    + cbn [Json.encode Json.size]. unfold Json.encode_str.
      cbn [String.length]. lia.
    + simpl. lia.
    + change (Json.size (Json.JArr (x :: xs)))
        with (S (S (Json.size x)
                 + list_sum (map (fun y => S (Json.size y)) xs))) in *.
      cbn [Json.encode].
      rewrite !length_append.
      assert (Json.size x <= String.length (Json.encode (S level) x))
        by (apply IH; lia).
      assert (list_sum (map (fun y => S (Json.size y)) xs)
              <= String.length (arr_more level xs)).
      { apply encode_more_length. intros y Hy. apply IH.
        pose proof (in_list_sum (fun y => S (Json.size y)) xs y Hy) as Hy'.
        cbv beta in Hy'. lia. }
      simpl String.length. lia.
    + simpl. lia.
    + change (Json.size (Json.JObj ((k, x) :: xs)))
        with (S (S (Json.size x)
                 + list_sum (map (fun kv => S (Json.size (snd kv))) xs))) in *.
      cbn [Json.encode].
      rewrite !length_append.
      assert (Json.size x <= String.length (Json.encode (S level) x))
        by (apply IH; lia).
      assert (list_sum (map (fun kv => S (Json.size (snd kv))) xs)
              <= String.length (obj_more level xs)).
      { apply (encode_more_length _ _ (fun kv => Json.size (snd kv))).
        intros y Hy. rewrite !length_append.
        assert (Json.size (snd y)
                <= String.length (Json.encode (S level) (snd y))).
        { apply IH.
          pose proof (in_list_sum (fun kv => S (Json.size (snd kv))) xs y Hy)
            as Hy'.
          cbv beta in Hy'. lia. }
        lia. }
      set (Lx := String.length (Json.encode (S level) x)) in *.
      set (Lm := String.length (obj_more level xs)) in *.
      simpl String.length. lia.
Qed.

(** [json.loads(json.dumps(v, indent=2)) == v]. *)
Lemma loads_dumps (v : Json.value) : Json.loads (Json.dumps v) = Ok v.
Proof.
  unfold Json.loads, Json.dumps.
  rewrite (skip_ws_value _ (encode_starts_value 0 v)).
  rewrite <- (append_nil_r (Json.encode 0 v)) at 2.
  destruct (decode_encode_fuel (2 * String.length (Json.encode 0 v) + 2))
    as [Hv _].
  rewrite Hv; [reflexivity|].
  pose proof (size_le_length (Json.size v) v 0 (Nat.le_refl _)). lia.
Qed.

Lemma strs_of_json_map (l : list string) :
  strs_of_json (map Json.JStr l) = Ok l.
Proof. induction l as [|s l IH]; simpl; [reflexivity | now rewrite IH]. Qed.

Lemma item_of_json_of_item (item : Item) :
  item_of_json (json_of_item item) = Ok item.
Proof. destruct item. simpl. now rewrite strs_of_json_map. Qed.

Lemma entries_of_json_of_table (table : Table) :
  entries_of_json (map (fun kv => (fst kv, json_of_item (snd kv))) table)
  = Ok table.
Proof.
  induction table as [|[k item] t IH]; [reflexivity|].
  cbn [map entries_of_json fst snd].
  rewrite item_of_json_of_item. unfold rbind at 1. rewrite IH. reflexivity.
Qed.

Lemma table_of_json_of_table (table : Table) :
  Dict.wf table -> table_of_json (json_of_table table) = Ok table.
Proof.
  intros Hwf. unfold table_of_json, json_of_table.
  rewrite entries_of_json_of_table. simpl. now rewrite of_pairs_wf.
Qed.

(* ------------------------------------------------------------------ *)
(** ** The metadata store and its snapshot *)

Lemma save_get (db_file : string) (table : Table) (fs : FS) :
  Dict.get db_file (MockDynamoDB._save db_file table fs)
  = Some (Json.dumps (json_of_table table)).
Proof.
  unfold MockDynamoDB._save, MockDynamoDB._save_ops, run_ops. simpl.
  rewrite get_set_same. apply get_set_same.
Qed.

Lemma init_after_save (db_file : string) (table : Table) (fs : FS) :
  Dict.wf table ->
  MockDynamoDB.__init__ db_file (MockDynamoDB._save db_file table fs)
  = Ok table.
Proof.
  intros Hwf. unfold MockDynamoDB.__init__, path_exists, read_text.
  rewrite save_get. cbv beta iota delta [rbind].
  rewrite loads_dumps. now apply table_of_json_of_table.
Qed.

Lemma init_wf (db_file : string) (fs : FS) (table : Table) :
  MockDynamoDB.__init__ db_file fs = Ok table -> Dict.wf table.
Proof.
  unfold MockDynamoDB.__init__, path_exists, read_text.
  destruct (Dict.get db_file fs) as [text|].
  - simpl. destruct (Json.loads text) as [v|e]; [|discriminate]. simpl.
    destruct v as [s|l|l]; try discriminate. simpl.
    destruct (entries_of_json l) as [entries|e]; [|discriminate].
    simpl. intros [= <-]. apply wf_of_pairs.
  - intros [= <-]. constructor.
Qed.

Lemma put_items_invariant (db_file : string) (items : list Item) :
  forall table fs,
    Dict.wf table ->
    MockDynamoDB.__init__ db_file fs = Ok table ->
    Dict.wf (fst (put_items db_file items table fs))
    /\ MockDynamoDB.__init__ db_file (snd (put_items db_file items table fs))
       = Ok (fst (put_items db_file items table fs)).
Proof.
  induction items as [|item items IH]; intros table fs Hwf Hinit.
  - simpl. auto.
  - simpl. apply IH.
    + now apply wf_set.
    + apply init_after_save. now apply wf_set.
Qed.

(** C7: a store is built from the snapshot, any list of records is put
    into it, and a second store is built from the snapshot then on disk.
    The second store holds the table of the first one: the same scan, in
    the same order. *)
Theorem C7_snapshot_round_trip (db_file : string) (fs0 : FS)
    (table0 : Table) (items : list Item) :
  MockDynamoDB.__init__ db_file fs0 = Ok table0 ->
  exists fresh : Table,
    MockDynamoDB.__init__ db_file (snd (put_items db_file items table0 fs0))
    = Ok fresh
    /\ MockDynamoDB.scan fresh
       = MockDynamoDB.scan (fst (put_items db_file items table0 fs0))
    /\ (forall item,
          In item (MockDynamoDB.scan fresh)
          <-> In item
                (MockDynamoDB.scan (fst (put_items db_file items table0 fs0)))).
Proof.
  intros Hinit.
  destruct (put_items_invariant db_file items table0 fs0
              (init_wf _ _ _ Hinit) Hinit) as [_ H].
  eexists. split; [exact H|]. split; [reflexivity | tauto].
Qed.

Lemma C7_witness :
  MockDynamoDB.__init__ db_file0 [] = Ok []
  /\ exists fresh : Table,
       MockDynamoDB.__init__ db_file0
         (snd (put_items db_file0 [rec_err; rec_png; rec_err] [] []))
       = Ok fresh
       /\ MockDynamoDB.scan fresh
          = MockDynamoDB.scan
              (fst (put_items db_file0 [rec_err; rec_png; rec_err] [] []))
       /\ (forall item,
             In item (MockDynamoDB.scan fresh)
             <-> In item
                   (MockDynamoDB.scan
                      (fst (put_items db_file0 [rec_err; rec_png; rec_err]
                              [] [])))).
Proof.
  assert (H : MockDynamoDB.__init__ db_file0 [] = Ok []) by reflexivity.
  split; [exact H|].
  exact (C7_snapshot_round_trip db_file0 [] [] [rec_err; rec_png; rec_err] H).
Defined.

(** C3, as the specification states it, fails.  A store holds one record
    and its snapshot is on disk; a second record is put.  [_save] writes
    to no other location than the snapshot file, and between its two
    operations that file is empty: neither the old nor the new snapshot,
    and a store built then raises. *)
Lemma C3_counterexample :
  MockDynamoDB.__init__ db_file0 fs_old = Ok table_err
  /\ In fs_torn (trace fs_old (MockDynamoDB._save_ops db_file0 table_new))
  /\ Dict.get db_file0 fs_torn = Some EmptyString
  /\ MockDynamoDB.__init__ db_file0 fs_torn = Raise JSONDecodeError
  /\ ~ atomic_save db_file0 table_new fs_old
  /\ ~ writes_elsewhere_first db_file0 table_new.
Proof.
  split; [vm_compute; reflexivity|].
  split; [left; reflexivity|].
  split; [vm_compute; reflexivity|].
  split; [vm_compute; reflexivity|].
  split.
  - intros H. specialize (H fs_torn (or_introl eq_refl)).
    destruct H as [H|H]; vm_compute in H; discriminate.
  - intros [op [rest [Heq Hne]]]. apply Hne.
    injection Heq as <- _. reflexivity.
Qed.

(** C3, amended: every persist rewrites the snapshot file in place.  All
    operations of [_save] are on the snapshot file itself; the first one
    leaves it empty, the second one leaves in it the full new snapshot,
    which loads back as the table written. *)
Theorem C3_save_rewrites_in_place (db_file : string) (table : Table)
    (fs : FS) :
  Forall (fun op => op_path op = db_file)
         (MockDynamoDB._save_ops db_file table)
  /\ trace fs (MockDynamoDB._save_ops db_file table)
     = [Dict.set db_file EmptyString fs; MockDynamoDB._save db_file table fs]
  /\ Dict.get db_file (Dict.set db_file EmptyString fs) = Some EmptyString
  /\ Dict.get db_file (MockDynamoDB._save db_file table fs)
     = Some (Json.dumps (json_of_table table))
  /\ Json.loads (Json.dumps (json_of_table table)) = Ok (json_of_table table).
Proof.
  split; [repeat constructor|].
  split; [reflexivity|].
  split; [apply get_set_same|].
  split; [apply save_get | apply loads_dumps].
Qed.

(* ------------------------------------------------------------------ *)
(** ** More on the search engine *)

Lemma match_loop_existsb (query_tokens item_tags : list string)
    (item_id : string) :
  MockOpenSearch.match_loop query_tokens item_tags item_id
  = existsb
      (fun token =>
         (PyStr.list_in token item_tags || PyStr.str_in token item_id)%bool)
      query_tokens.
Proof.
  induction query_tokens as [|t ts IH]; simpl; [reflexivity|].
  destruct (PyStr.list_in t item_tags || PyStr.str_in t item_id)%bool;
    [reflexivity | exact IH].
Qed.

(** X1: [search] returns the records of the scan that pass the test, in
    the order of the scan and as often as they occur there; hence the
    results over a table made of two parts are the results over the
    first part followed by those over the second. *)
Theorem X1_search_keeps_scan_order (table more : Table)
    (query_text : string) :
  MockOpenSearch.search table query_text
  = filter (item_matchb (query_tokens_of query_text))
           (MockDynamoDB.scan table)
  /\ MockOpenSearch.search (table ++ more) query_text
     = MockOpenSearch.search table query_text
       ++ MockOpenSearch.search more query_text.
Proof.
  assert (H : forall t,
             MockOpenSearch.search t query_text
             = filter (item_matchb (query_tokens_of query_text))
                      (MockDynamoDB.scan t)).
  { intros t. unfold MockOpenSearch.search. rewrite search_loop_sublist.
    apply filter_ext. intros item. apply match_loop_existsb. }
  split; [apply H|].
  rewrite !H. unfold MockDynamoDB.scan, Dict.values.
  now rewrite map_app, filter_app.
Qed.

Lemma split_cons2 (c d : ascii) (r : string) :
  PyStr.split (String c (String d r))
  = if PyStr.isspace c then PyStr.split (String d r)
    else if PyStr.isspace d
         then String c EmptyString :: PyStr.split (String d r)
         else match PyStr.split (String d r) with
              | w :: ws => String c w :: ws
              | [] => [String c EmptyString]
              end.
Proof. reflexivity. Qed.

Lemma split_nonempty (d : ascii) (r : string) :
  PyStr.isspace d = false ->
  exists w ws, PyStr.split (String d r) = w :: ws.
Proof.
  intros Hd. destruct r as [|e r].
  - simpl. rewrite Hd. eauto.
  - rewrite split_cons2, Hd.
    destruct (PyStr.isspace e); [eauto|].
    destruct (PyStr.split (String e r)); eauto.
Qed.

(** [str.split] over two texts joined by a whitespace character. *)
Lemma split_app_space (sp : ascii) (a b : string) :
  PyStr.isspace sp = true ->
  PyStr.split (a ++ String sp b) = PyStr.split a ++ PyStr.split b.
Proof.
  intros Hsp. induction a as [|c r IH].
  - simpl. now rewrite Hsp.
  - destruct r as [|d r'].
    + change ((String c EmptyString ++ String sp b)%string)
        with (String c (String sp b)).
      rewrite split_cons2, Hsp.
      change (PyStr.split (String sp b))
        with (if PyStr.isspace sp then PyStr.split b
              else match b with
                   | EmptyString => [String sp EmptyString]
                   | String d _ =>
                       if PyStr.isspace d
                       then String sp EmptyString :: PyStr.split b
                       else match PyStr.split b with
                            | w :: ws => String sp w :: ws
                            | [] => [String sp EmptyString]
                            end
                   end).
      rewrite Hsp. simpl PyStr.split.
      destruct (PyStr.isspace c); reflexivity.
    + change ((String c (String d r') ++ String sp b)%string)
        with (String c (String d (r' ++ String sp b))).
      rewrite !split_cons2.
      change (String d (r' ++ String sp b))
        with ((String d r' ++ String sp b)%string).
      rewrite IH.
      destruct (PyStr.isspace c); [reflexivity|].
      destruct (PyStr.isspace d) eqn:Hd; [reflexivity|].
      destruct (split_nonempty d r' Hd) as [w [ws ->]]. reflexivity.
Qed.

Lemma query_tokens_two (q1 q2 : string) :
  query_tokens_of (q1 ++ " " ++ q2)
  = query_tokens_of q1 ++ query_tokens_of q2.
Proof.
  unfold query_tokens_of. rewrite lower_append.
  change (PyStr.lower (" " ++ q2)) with (String " " (PyStr.lower q2)).
  now apply split_app_space.
Qed.

(** X2: a query made of two queries joined by a space returns exactly
    the records one of the two returns. *)
Theorem X2_search_is_union_over_words (table : Table) (q1 q2 : string)
    (item : Item) :
  In item (MockOpenSearch.search table (q1 ++ " " ++ q2))
  <-> In item (MockOpenSearch.search table q1)
      \/ In item (MockOpenSearch.search table q2).
Proof.
  rewrite !search_iff, query_tokens_two. unfold code_matches. split.
  - intros [Hin [token [Htok H]]]. apply in_app_or in Htok.
    destruct Htok as [Htok|Htok]; [left|right]; eauto.
  - intros [[Hin [token [Htok H]]]|[Hin [token [Htok H]]]];
      (split; [exact Hin|]); exists token; (split; [|exact H]);
      apply in_or_app; auto.
Qed.

Lemma all_space_lower (s : string) : all_space (PyStr.lower s) = all_space s.
Proof.
  induction s as [|c s IH]; simpl; [reflexivity|].
  now rewrite isspace_lower_char, IH.
Qed.

Lemma split_all_space (s : string) : all_space s = true -> PyStr.split s = [].
Proof.
  induction s as [|c s IH]; [reflexivity|].
  simpl. intros H. apply andb_true_iff in H. destruct H as [Hc Hs].
  rewrite Hc. auto.
Qed.

(** X3: a query of whitespace only (tabs, newlines, no-break spaces
    included) returns no record, on every table. *)
Theorem X3_blank_query_matches_nothing (table : Table)
    (query_text : string) :
  all_space query_text = true ->
  MockOpenSearch.search table query_text = [].
Proof.
  intros H. unfold MockOpenSearch.search.
  rewrite split_all_space by now rewrite all_space_lower.
  apply search_loop_no_tokens.
Qed.

Lemma X3_witness :
  all_space (String " " (String "009" (String "010" EmptyString))) = true
  /\ MockOpenSearch.search table_png
       (String " " (String "009" (String "010" EmptyString))) = [].
Proof.
  assert (H : all_space (String " " (String "009" (String "010" EmptyString)))
              = true) by reflexivity.
  split; [exact H|].
  exact (X3_blank_query_matches_nothing table_png _ H).
Defined.

(* ------------------------------------------------------------------ *)
(** ** More on the metadata store *)

Lemma set_split {V : Type} (k : string) (v : V) (d : Dict.t V) :
  (Dict.get k d = None /\ Dict.set k v d = d ++ [(k, v)])
  \/ (exists before old after,
        d = before ++ (k, old) :: after
        /\ Dict.get k d = Some old
        /\ Dict.set k v d = before ++ (k, v) :: after).
Proof.
  induction d as [|[k' v'] d IH]; simpl.
  - left. auto.
  - destruct (String.eqb_spec k k') as [->|Hne].
    + right. exists [], v', d. auto.
    + destruct IH as [[Hnone Hset]|[before [old [after [Hd [Hget Hset]]]]]].
      * left. split; [exact Hnone|]. now rewrite Hset.
      * right. exists ((k', v') :: before), old, after.
        rewrite Hset. split; [now rewrite Hd|]. auto.
Qed.

(** X4: [put_item] then [get_item]: the id of the item put returns that
    item, and every other id returns what it returned before. *)
Theorem X4_put_then_get (db_file : string) (item : Item) (table : Table)
    (fs : FS) :
  MockDynamoDB.get_item
    (fst (MockDynamoDB.put_item db_file item table fs)) (photo_id item)
  = Some item
  /\ (forall pid,
        pid <> photo_id item ->
        MockDynamoDB.get_item
          (fst (MockDynamoDB.put_item db_file item table fs)) pid
        = MockDynamoDB.get_item table pid).
Proof.
  unfold MockDynamoDB.put_item, MockDynamoDB.get_item. simpl. split.
  - apply get_set_same.
  - intros pid Hne. now apply get_set_other.
Qed.

(** X5: what [put_item] does to the scan.  An id the table does not
    hold adds the item at the end; an id it holds has its record
    replaced where it stands, the records before and after it staying
    as they are. *)
Theorem X5_put_appends_or_replaces (db_file : string) (item : Item)
    (table : Table) (fs : FS) :
  (MockDynamoDB.get_item table (photo_id item) = None
   /\ MockDynamoDB.scan (fst (MockDynamoDB.put_item db_file item table fs))
      = MockDynamoDB.scan table ++ [item])
  \/ (exists before old after,
        MockDynamoDB.get_item table (photo_id item) = Some old
        /\ MockDynamoDB.scan table = before ++ old :: after
        /\ MockDynamoDB.scan
             (fst (MockDynamoDB.put_item db_file item table fs))
           = before ++ item :: after).
Proof.
  unfold MockDynamoDB.put_item, MockDynamoDB.get_item, MockDynamoDB.scan,
    Dict.values. simpl.
  destruct (set_split (photo_id item) item table)
    as [[Hnone Hset]|[before [old [after [Hd [Hget Hset]]]]]].
  - left. split; [exact Hnone|]. rewrite Hset, map_app. reflexivity.
  - right. exists (map snd before), old, (map snd after).
    split; [exact Hget|]. rewrite Hset. rewrite Hd at 1.
    rewrite !map_app. auto.
Qed.

Lemma put_items_table (db_file : string) (items : list Item) :
  forall table fs,
    fst (put_items db_file items table fs)
    = fold_left (fun t item => Dict.set (photo_id item) item t) items table.
Proof.
  induction items as [|item items IH]; intros table fs; [reflexivity|].
  simpl. apply IH.
Qed.

(** X6: after a list of [put_item] calls, [get_item] returns for every
    id the last item of the list put under it, and what the table held
    before when the list has none. *)
Theorem X6_last_put_wins (db_file : string) (items : list Item)
    (table : Table) (fs : FS) (pid : string) :
  MockDynamoDB.get_item (fst (put_items db_file items table fs)) pid
  = match last_put pid items with
    | Some item => Some item
    | None => MockDynamoDB.get_item table pid
    end.
Proof.
  rewrite put_items_table. unfold MockDynamoDB.get_item.
  revert table. induction items as [|item items IH]; intros table;
    [reflexivity|].
  simpl. rewrite IH. destruct (last_put pid items); [reflexivity|].
  destruct (String.eqb_spec (photo_id item) pid) as [<-|Hne].
  - apply get_set_same.
  - apply get_set_other. congruence.
Qed.

(** X7: [put_item] writes to the snapshot file only: afterwards that
    file holds the dump of the new table and every other path holds
    what it held. *)
Theorem X7_put_item_writes_snapshot_only (db_file : string) (item : Item)
    (table : Table) (fs : FS) :
  Dict.get db_file (snd (MockDynamoDB.put_item db_file item table fs))
  = Some (Json.dumps
            (json_of_table
               (fst (MockDynamoDB.put_item db_file item table fs))))
  /\ (forall path,
        path <> db_file ->
        Dict.get path (snd (MockDynamoDB.put_item db_file item table fs))
        = Dict.get path fs).
Proof.
  unfold MockDynamoDB.put_item. simpl. split; [apply save_get|].
  intros path Hne.
  unfold MockDynamoDB._save, MockDynamoDB._save_ops, run_ops. simpl.
  rewrite get_set_same. now rewrite !get_set_other.
Qed.

Lemma skip_ws_blank (s : string) :
  json_blank s = true -> Json.skip_ws s = EmptyString.
Proof.
  induction s as [|c s IH]; [reflexivity|].
  simpl. intros H. apply andb_true_iff in H. destruct H as [Hc Hs].
  rewrite Hc. auto.
Qed.

(** X8: a snapshot file that exists and holds nothing but whitespace
    makes [MockDynamoDB()] raise [JSONDecodeError]; the table does not
    start empty as it does when the file is missing. *)
Theorem X8_blank_snapshot_raises (db_file text : string) (fs : FS) :
  Dict.get db_file fs = Some text ->
  json_blank text = true ->
  MockDynamoDB.__init__ db_file fs = Raise JSONDecodeError.
Proof.
  intros Hget Hblank.
  unfold MockDynamoDB.__init__, path_exists, read_text. rewrite Hget.
  cbv beta iota delta [rbind]. unfold Json.loads.
  rewrite (skip_ws_blank text Hblank).
  replace (2 * String.length text + 2) with (S (2 * String.length text + 1))
    by lia.
  reflexivity.
Qed.

Lemma X8_witness :
  Dict.get db_file0 fs_torn = Some EmptyString
  /\ json_blank EmptyString = true
  /\ MockDynamoDB.__init__ db_file0 fs_torn = Raise JSONDecodeError
  /\ MockDynamoDB.__init__ db_file0 [] = Ok [].
Proof.
  assert (H1 : Dict.get db_file0 fs_torn = Some EmptyString)
    by (vm_compute; reflexivity).
  assert (H2 : json_blank EmptyString = true) by reflexivity.
  split; [exact H1|]. split; [exact H2|].
  split; [exact (X8_blank_snapshot_raises db_file0 EmptyString fs_torn H1 H2)|].
  reflexivity.
Defined.

(* ------------------------------------------------------------------ *)
(** ** The detector of the prototype *)

(** The label names, without the confidences. *)
Lemma detect_labels_names (uniform : nat -> Q) (image_key : string) :
  map Name (MockRekognition.detect_labels uniform image_key)
  = ["Person"; "Indoor"; "Screenshot"]
    ++ (if PyStr.str_in "error" (PyStr.lower image_key)
        then ["Text"; "Error Message"; "Computer"; "Monitor"] else [])
    ++ (if PyStr.str_in "search" (PyStr.lower image_key)
        then ["Web Page"; "Search Results"; "UI"; "Internet"] else [])
    ++ (if PyStr.str_in "login" (PyStr.lower image_key)
        then ["Form"; "Login Screen"; "Security"] else [])
    ++ (if PyStr.str_in "job" (PyStr.lower image_key)
        then ["Document"; "Resume"; "Business"] else []).
Proof.
  unfold MockRekognition.detect_labels.
  destruct (PyStr.str_in "error" (PyStr.lower image_key));
    destruct (PyStr.str_in "search" (PyStr.lower image_key));
    destruct (PyStr.str_in "login" (PyStr.lower image_key));
    destruct (PyStr.str_in "job" (PyStr.lower image_key));
    reflexivity.
Qed.

(** X9: the label names [detect_labels] returns do not depend on the
    random confidences; they start with Person, Indoor, Screenshot and
    are at most seventeen. *)
Theorem X9_label_names_are_deterministic (uniform uniform' : nat -> Q)
    (image_key : string) :
  map Name (MockRekognition.detect_labels uniform image_key)
  = map Name (MockRekognition.detect_labels uniform' image_key)
  /\ firstn 3 (map Name (MockRekognition.detect_labels uniform image_key))
     = ["Person"; "Indoor"; "Screenshot"]
  /\ List.length (MockRekognition.detect_labels uniform image_key) <= 17.
Proof.
  rewrite <- (length_map Name), !detect_labels_names.
  destruct (PyStr.str_in "error" (PyStr.lower image_key));
    destruct (PyStr.str_in "search" (PyStr.lower image_key));
    destruct (PyStr.str_in "login" (PyStr.lower image_key));
    destruct (PyStr.str_in "job" (PyStr.lower image_key));
    (split; [reflexivity | split; [reflexivity | simpl; lia]]).
Qed.

(** X10: each keyword group is returned exactly when its keyword occurs
    in the lower-cased key: Error Message with [error], Search Results
    with [search], Login Screen with [login], Resume with [job]. *)
Theorem X10_labels_follow_keywords (uniform : nat -> Q)
    (image_key : string) :
  let names := map Name (MockRekognition.detect_labels uniform image_key) in
  PyStr.list_in "Error Message" names
  = PyStr.str_in "error" (PyStr.lower image_key)
  /\ PyStr.list_in "Search Results" names
     = PyStr.str_in "search" (PyStr.lower image_key)
  /\ PyStr.list_in "Login Screen" names
     = PyStr.str_in "login" (PyStr.lower image_key)
  /\ PyStr.list_in "Resume" names
     = PyStr.str_in "job" (PyStr.lower image_key).
Proof.
  intros names. subst names. rewrite detect_labels_names.
  destruct (PyStr.str_in "error" (PyStr.lower image_key));
    destruct (PyStr.str_in "search" (PyStr.lower image_key));
    destruct (PyStr.str_in "login" (PyStr.lower image_key));
    destruct (PyStr.str_in "job" (PyStr.lower image_key));
    repeat split; reflexivity.
Qed.

(** The confidence of the [i]-th label is the [i]-th draw. *)
Lemma detect_labels_confidence (uniform : nat -> Q) (image_key : string)
    (i : nat) (label : Label) :
  nth_error (MockRekognition.detect_labels uniform image_key) i = Some label ->
  Confidence label = uniform i.
Proof.
  unfold MockRekognition.detect_labels.
  set (labels := if PyStr.str_in "job" _ then _ else _).
  generalize labels. clear labels. intros labels.
  assert (H : forall (l : list string) (k : nat) (i : nat),
             nth_error
               (map (fun il => mkLabel (snd il) (uniform (fst il)))
                    (combine (seq k (List.length l)) l)) i = Some label ->
             Confidence label = uniform (k + i)).
  { induction l as [|x l IH]; intros k j; simpl.
    - destruct j; discriminate.
    - destruct j as [|j]; simpl.
      + intros [= <-]. simpl. now rewrite Nat.add_0_r.
      + intros H. rewrite (IH (S k) j H). f_equal. lia. }
  intros Hnth. exact (H labels 0 i Hnth).
Qed.

(** A label of a keyword group among the names: the keyword occurs in
    the key. *)
Lemma keyword_of_label (uniform : nat -> Q) (image_key : string) :
  let names := map Name (MockRekognition.detect_labels uniform image_key) in
  (In "Error Message" names -> substring_of "error" (PyStr.lower image_key))
  /\ (In "Search Results" names
      -> substring_of "search" (PyStr.lower image_key))
  /\ (In "Login Screen" names
      -> substring_of "login" (PyStr.lower image_key)).
Proof.
  intros names. subst names. rewrite detect_labels_names.
  split; [|split]; intros H; apply str_in_iff; apply list_in_iff in H;
    destruct (PyStr.str_in "error" (PyStr.lower image_key));
    destruct (PyStr.str_in "search" (PyStr.lower image_key));
    destruct (PyStr.str_in "login" (PyStr.lower image_key));
    destruct (PyStr.str_in "job" (PyStr.lower image_key));
    first [reflexivity | discriminate H].
Qed.

(** X11: a photo ingested with the detector of the prototype and tagged
    Error Message, Search Results or Login Screen is returned by the
    query [error], [search] or [login]: the keyword that produced the
    tag occurs in the record's id. *)
Theorem X11_keyword_photos_are_found (uniform : nat -> Q)
    (now file_path uid : string) (st st' : State) (item : Item) :
  PhotoOrganizerSystem.upload_and_process
    (MockRekognition.detector uniform) now file_path uid st
  = (Ok item, st') ->
  (In "Error Message" (tags item) ->
   In item (MockOpenSearch.search (db_table st') "error"))
  /\ (In "Search Results" (tags item) ->
      In item (MockOpenSearch.search (db_table st') "search"))
  /\ (In "Login Screen" (tags item) ->
      In item (MockOpenSearch.search (db_table st') "login")).
Proof.
  rewrite upload_and_process_unfold.
  destruct (MockS3.upload_file _ _ _ _) as [[dest fs']|e]; [|discriminate].
  rewrite mock_detector_returns. intros [= <- <-]. simpl.
  set (key := s3_key_of file_path uid).
  assert (Hscan : forall item,
             photo_id item = key ->
             In item (MockDynamoDB.scan (Dict.set key item (db_table st)))).
  { intros item _. apply (get_in_values key). apply get_set_same. }
  destruct (keyword_of_label uniform key) as [H1 [H2 H3]].
  split; [|split]; intros Htag; apply search_iff;
    (split; [now apply Hscan|]).
  - exists "error". split; [left; reflexivity | right; exact (H1 Htag)].
  - exists "search". split; [left; reflexivity | right; exact (H2 Htag)].
  - exists "login". split; [left; reflexivity | right; exact (H3 Htag)].
Qed.

Lemma X11_witness :
  exists (item : Item) (st' : State),
    PhotoOrganizerSystem.upload_and_process
      (MockRekognition.detector (fun _ => 90%Q)) "2024-05-01T10:00:00"
      "/home/u/login_error.png" "u1" state_job
    = (Ok item, st')
    /\ In "Error Message" (tags item)
    /\ In item (MockOpenSearch.search (db_table st') "error")
    /\ In item (MockOpenSearch.search (db_table st') "login")
    /\ MockOpenSearch.search (db_table st') "message" = [].
Proof.
  eexists _, _.
  assert (H : PhotoOrganizerSystem.upload_and_process
                (MockRekognition.detector (fun _ => 90%Q))
                "2024-05-01T10:00:00" "/home/u/login_error.png" "u1"
                state_job
              = (Ok (metadata_of "2024-05-01T10:00:00"
                       "/home/u/login_error.png" "u1"
                       (MockRekognition.detect_labels (fun _ => 90%Q)
                          "u1/login_error.png")),
                 snd (PhotoOrganizerSystem.upload_and_process
                        (MockRekognition.detector (fun _ => 90%Q))
                        "2024-05-01T10:00:00" "/home/u/login_error.png" "u1"
                        state_job)))
    by reflexivity.
  split; [exact H|].
  destruct (X11_keyword_photos_are_found _ _ _ _ _ _ _ H) as [H1 [_ H3]].
  assert (Ht : In "Error Message"
                 (tags (metadata_of "2024-05-01T10:00:00"
                          "/home/u/login_error.png" "u1"
                          (MockRekognition.detect_labels (fun _ => 90%Q)
                             "u1/login_error.png"))))
    by (simpl; tauto).
  split; [exact Ht|]. split; [exact (H1 Ht)|].
  split; [apply H3; simpl; tauto | reflexivity].
Defined.

(* ------------------------------------------------------------------ *)
(** ** More on the ingestion pipeline *)

Lemma append_inv_head (a x y : string) :
  (a ++ x)%string = (a ++ y)%string -> x = y.
Proof. induction a as [|c a IH]; simpl; [auto | intros [= H]; auto]. Qed.

Lemma endswith_char_app (a b : string) (c : ascii) :
  b <> EmptyString ->
  PyStr.endswith_char (a ++ b) c = PyStr.endswith_char b c.
Proof.
  intros Hb. induction a as [|x a IH]; [reflexivity|].
  simpl. destruct (a ++ b)%string eqn:E.
  - destruct a; [simpl in E; congruence | discriminate].
  - exact IH.
Qed.

Lemma prefix_cons (a b : ascii) (p s : string) :
  String.prefix (String a p) (String b s)
  = if ascii_dec a b then String.prefix p s else false.
Proof. reflexivity. Qed.

Lemma prefix_nil (s : string) : String.prefix EmptyString s = true.
Proof. destruct s; reflexivity. Qed.

Lemma join_relative (a b : string) :
  PyStr.startswith b "/" = false ->
  PosixPath.join a b = (a ++ join_sep a ++ b)%string.
Proof.
  intros Hb. unfold PosixPath.join, join_sep. rewrite Hb.
  destruct (String.eqb a EmptyString || PyStr.endswith_char a PosixPath.sep)%bool;
    reflexivity.
Qed.

Lemma startswith_slash_app (uid rest : string) :
  uid <> EmptyString ->
  PyStr.startswith (uid ++ rest) "/" = PyStr.startswith uid "/".
Proof.
  intros Hne. destruct uid as [|c u]; [congruence|].
  unfold PyStr.startswith.
  change ((String c u ++ rest)%string) with (String c (u ++ rest)).
  change "/" with (String "/" EmptyString).
  rewrite !prefix_cons.
  destruct (ascii_dec "/" c); [|reflexivity].
  now rewrite !prefix_nil.
Qed.

(** The bucket directory and the snapshot file stand side by side under
    [BASE_DIR]. *)
Lemma bucket_and_db_paths (st : State) :
  S3_BUCKET_DIR st
  = (BASE_DIR st ++ join_sep (BASE_DIR st) ++ "mock_s3_bucket")%string
  /\ DB_FILE st
     = (BASE_DIR st ++ join_sep (BASE_DIR st) ++ "mock_dynamodb.json")%string.
Proof. split; apply join_relative; reflexivity. Qed.

Lemma join_bucket_relative (st : State) (key : string) :
  PyStr.startswith key "/" = false ->
  PosixPath.join (S3_BUCKET_DIR st) key
  = (S3_BUCKET_DIR st ++ "/" ++ key)%string.
Proof.
  intros Hkey. rewrite join_relative by exact Hkey. f_equal.
  unfold join_sep. destruct (bucket_and_db_paths st) as [-> _].
  rewrite <- append_assoc, endswith_char_app by discriminate.
  destruct ((BASE_DIR st ++ join_sep (BASE_DIR st)) ++ "mock_s3_bucket")%string
    eqn:E; [|reflexivity].
  destruct (BASE_DIR st ++ join_sep (BASE_DIR st))%string; discriminate.
Qed.

Lemma upload_file_inv (bucket source key dest : string) (fs fs' : FS) :
  MockS3.upload_file bucket source key fs = Ok (dest, fs') ->
  exists data,
    Dict.get source fs = Some data
    /\ dest = PosixPath.join bucket key
    /\ fs' = Dict.set dest data fs.
Proof.
  unfold MockS3.upload_file.
  destruct (Dict.get source fs) as [data|]; [|discriminate].
  destruct (String.eqb source (PosixPath.join bucket key)); [discriminate|].
  intros [= <- <-]. eauto.
Qed.

(** X12: when the copy into the bucket raises, [upload_and_process]
    raises the same exception, and the table of the store and the
    result of [get_item] for every id are those before the call: no
    record is put. *)
Theorem X12_failed_upload_records_nothing (rekognition : Detector)
    (now file_path uid : string) (st : State) (e : exn) :
  MockS3.upload_file (S3_BUCKET_DIR st) file_path (s3_key_of file_path uid)
    (files st) = Raise e ->
  let run :=
    PhotoOrganizerSystem.upload_and_process rekognition now file_path uid st in
  fst run = Raise e
  /\ db_table (snd run) = db_table st
  /\ (forall pid,
        MockDynamoDB.get_item (db_table (snd run)) pid
        = MockDynamoDB.get_item (db_table st) pid).
Proof.
  intros H run. subst run. rewrite upload_and_process_unfold, H.
  repeat split.
Qed.

Lemma X12_witness :
  MockS3.upload_file (S3_BUCKET_DIR state0) "/home/u/missing.png"
    (s3_key_of "/home/u/missing.png" "u1") (files state0)
  = Raise FileNotFoundError
  /\ fst (PhotoOrganizerSystem.upload_and_process detector_err
            "2024-05-01T10:00:00" "/home/u/missing.png" "u1" state0)
     = Raise FileNotFoundError
  /\ db_table
       (snd (PhotoOrganizerSystem.upload_and_process detector_err
               "2024-05-01T10:00:00" "/home/u/missing.png" "u1" state0))
     = db_table state0.
Proof.
  assert (H : MockS3.upload_file (S3_BUCKET_DIR state0) "/home/u/missing.png"
                (s3_key_of "/home/u/missing.png" "u1") (files state0)
              = Raise FileNotFoundError) by reflexivity.
  destruct (X12_failed_upload_records_nothing detector_err
              "2024-05-01T10:00:00" "/home/u/missing.png" "u1" state0
              FileNotFoundError H) as [H1 [H2 _]].
  split; [exact H|]. split; [exact H1 | exact H2].
Defined.

(** X13: for a user id that is not empty and does not start with [/],
    the path [upload_file] copies to, which [get_file_url] returns for
    the key, is the text [S3_BUCKET_DIR/user_id/filename]: the bucket
    directory followed by [/] starts it.  The statement is about the
    path as written, not about the file it resolves to. *)
Theorem X13_blob_path_is_under_the_bucket (file_path uid : string)
    (st : State) :
  uid <> EmptyString ->
  PyStr.startswith uid "/" = false ->
  MockS3.get_file_url (S3_BUCKET_DIR st) (s3_key_of file_path uid)
  = (S3_BUCKET_DIR st ++ "/" ++ uid ++ "/"
     ++ PosixPath.basename file_path)%string
  /\ String.prefix (S3_BUCKET_DIR st ++ "/")
       (MockS3.get_file_url (S3_BUCKET_DIR st) (s3_key_of file_path uid))
     = true
  /\ (forall dest fs',
        MockS3.upload_file (S3_BUCKET_DIR st) file_path
          (s3_key_of file_path uid) (files st) = Ok (dest, fs') ->
        dest
        = MockS3.get_file_url (S3_BUCKET_DIR st) (s3_key_of file_path uid)).
Proof.
  intros Hne Hrel.
  assert (Hkey : PyStr.startswith (s3_key_of file_path uid) "/" = false).
  { unfold s3_key_of. now rewrite startswith_slash_app. }
  unfold MockS3.get_file_url.
  rewrite (join_bucket_relative st _ Hkey).
  split; [reflexivity|]. split.
  - apply prefix_iff. exists (s3_key_of file_path uid).
    now rewrite append_assoc.
  - intros dest fs' Hup. apply upload_file_inv in Hup.
    destruct Hup as [data [_ [-> _]]].
    apply (join_bucket_relative st _ Hkey).
Qed.

Lemma X13_witness :
  "u1" <> EmptyString
  /\ PyStr.startswith "u1" "/" = false
  /\ MockS3.get_file_url (S3_BUCKET_DIR state0)
       (s3_key_of "/home/u/photo_error.png" "u1")
     = "/srv/app/mock_s3_bucket/u1/photo_error.png".
Proof.
  assert (H1 : "u1" <> EmptyString) by discriminate.
  assert (H2 : PyStr.startswith "u1" "/" = false) by reflexivity.
  split; [exact H1|]. split; [exact H2|].
  exact (proj1 (X13_blob_path_is_under_the_bucket "/home/u/photo_error.png"
                  "u1" state0 H1 H2)).
Defined.





Lemma length_set {V : Type} (k : string) (v : V) (d : Dict.t V) :
  List.length d <= List.length (Dict.set k v d) <= S (List.length d).
Proof.
  induction d as [|[k' v'] d IH]; simpl; [lia|].
  destruct (String.eqb k k'); simpl; lia.
Qed.

Lemma in_set_other {V : Type} (k k0 : string) (v v0 : V) (d : Dict.t V) :
  k <> k0 -> In (k, v) d -> In (k, v) (Dict.set k0 v0 d).
Proof.
  intros Hne. induction d as [|[k' v'] d IH]; simpl; [tauto|].
  intros [[= -> ->]|Hin].
  - destruct (String.eqb_spec k0 k) as [E|_]; [congruence | now left].
  - destruct (String.eqb k0 k'); right; auto.
Qed.

(** X15: whatever way a call of [upload_and_process] ends, [get_item]
    returns for every id other than [user_id/filename] what it returned
    before, every entry of the table under another id is still in the
    table, the number of records of the scan does not decrease and grows
    by one at most, and [BASE_DIR] stays. *)
Theorem X15_ingest_leaves_other_records (rekognition : Detector)
    (now file_path uid : string) (st : State) :
  let st' :=
    snd (PhotoOrganizerSystem.upload_and_process rekognition now file_path
           uid st) in
  (forall pid,
      pid <> (uid ++ "/" ++ PosixPath.basename file_path)%string ->
      MockDynamoDB.get_item (db_table st') pid
      = MockDynamoDB.get_item (db_table st) pid)
  /\ (forall pid r,
        pid <> (uid ++ "/" ++ PosixPath.basename file_path)%string ->
        In (pid, r) (db_table st) -> In (pid, r) (db_table st'))
  /\ List.length (MockDynamoDB.scan (db_table st))
     <= List.length (MockDynamoDB.scan (db_table st'))
     <= S (List.length (MockDynamoDB.scan (db_table st)))
  /\ BASE_DIR st' = BASE_DIR st.
Proof.
  intros st'. subst st'. rewrite upload_and_process_unfold.
  unfold MockDynamoDB.scan, Dict.values. rewrite !length_map.
  destruct (MockS3.upload_file _ _ _ _) as [[dest fs']|e];
    [|simpl; repeat split; auto; lia].
  destruct (rekognition _) as [labels_data|e];
    [|simpl; repeat split; auto; lia].
  simpl. split; [|split; [|split; [apply length_set | reflexivity]]].
  - intros pid Hne. unfold MockDynamoDB.get_item. now apply get_set_other.
  - intros pid r Hne Hin. now apply in_set_other.
Qed.

Lemma get_of_in {V : Type} (k : string) (v : V) (d : Dict.t V) :
  Dict.wf d -> In (k, v) d -> Dict.get k d = Some v.
Proof.
  unfold Dict.wf. induction d as [|[k' v'] d IH]; simpl; [tauto|].
  intros Hnd Hin. apply NoDup_cons_iff in Hnd. destruct Hnd as [Hout Hnd].
  destruct Hin as [[= -> ->]|Hin].
  - now rewrite String.eqb_refl.
  - destruct (String.eqb_spec k k') as [->|Hne]; [|auto].
    exfalso. apply Hout. apply (in_map fst) in Hin. exact Hin.
Qed.

Lemma table_ok_fetch (table : Table) (r : Item) :
  table_ok table ->
  In r (MockDynamoDB.scan table) ->
  MockDynamoDB.get_item table (photo_id r) = Some r.
Proof.
  intros [Hwf Hid] Hin. unfold MockDynamoDB.scan, Dict.values in Hin.
  apply in_map_iff in Hin. destruct Hin as [[k v] [Hv Hin]].
  simpl in Hv. subst v.
  rewrite Forall_forall in Hid. pose proof (Hid _ Hin) as Hk. simpl in Hk.
  rewrite Hk. now apply get_of_in.
Qed.

Lemma table_ok_ids (table : Table) :
  table_ok table -> NoDup (map photo_id (MockDynamoDB.scan table)).
Proof.
  intros [Hwf Hid]. unfold MockDynamoDB.scan, Dict.values.
  rewrite map_map.
  replace (map (fun kv => photo_id (snd kv)) table) with (Dict.keys table);
    [exact Hwf|].
  unfold Dict.keys. apply map_ext_in. intros kv Hin.
  rewrite Forall_forall in Hid. symmetry. now apply Hid.
Qed.

(** X16: on a table that stores every record under its own id,
    whatever way a call of [upload_and_process] ends, the ids of the
    scan are pairwise distinct and [get_item] on the id of a scanned
    record returns that record. *)
Theorem X16_scanned_records_are_fetched_by_id (rekognition : Detector)
    (now file_path uid : string) (st : State) :
  table_ok (db_table st) ->
  let st' :=
    snd (PhotoOrganizerSystem.upload_and_process rekognition now file_path
           uid st) in
  NoDup (map photo_id (MockDynamoDB.scan (db_table st')))
  /\ (forall r,
        In r (MockDynamoDB.scan (db_table st')) ->
        MockDynamoDB.get_item (db_table st') (photo_id r) = Some r).
Proof.
  intros Hok st'.
  pose proof (upload_and_process_table_ok rekognition now file_path uid st Hok)
    as Hok'.
  split; [now apply table_ok_ids|].
  intros r Hr. now apply table_ok_fetch.
Qed.

Lemma X16_witness :
  table_ok (db_table state0)
  /\ NoDup
       (map photo_id
          (MockDynamoDB.scan
             (db_table
                (snd (PhotoOrganizerSystem.upload_and_process detector_err
                        "2024-05-01T10:00:00" "/home/u/photo_error.png" "u1"
                        state0))))).
Proof.
  split; [exact table_ok_empty|].
  exact (proj1 (X16_scanned_records_are_fetched_by_id detector_err
                  "2024-05-01T10:00:00" "/home/u/photo_error.png" "u1"
                  state0 table_ok_empty)).
Defined.

(** X17: a record just ingested is returned by the query made of its
    file name, when that name is one word, and by the query made of its
    user id, when that id is one word. *)
Theorem X17_ingested_photo_is_found_by_name (rekognition : Detector)
    (now file_path uid : string) (st st' : State) (item : Item) :
  PhotoOrganizerSystem.upload_and_process rekognition now file_path uid st
  = (Ok item, st') ->
  (one_word (PosixPath.basename file_path) = true ->
   In item
      (MockOpenSearch.search (db_table st') (PosixPath.basename file_path)))
  /\ (one_word uid = true ->
      In item (MockOpenSearch.search (db_table st') uid)).
Proof.
  rewrite upload_and_process_unfold.
  destruct (MockS3.upload_file _ _ _ _) as [[dest fs']|e]; [|discriminate].
  destruct (rekognition _) as [labels_data|e]; [|discriminate].
  intros [= <- <-]. simpl.
  set (item := metadata_of now file_path uid labels_data).
  assert (Hscan : In item
                    (MockDynamoDB.scan
                       (Dict.set (s3_key_of file_path uid) item
                          (db_table st)))).
  { apply (get_in_values (s3_key_of file_path uid)). apply get_set_same. }
  assert (Hid : PyStr.lower (photo_id item)
                = (PyStr.lower uid ++ "/"
                   ++ PyStr.lower (PosixPath.basename file_path))%string).
  { simpl. unfold s3_key_of. now rewrite !lower_append. }
  split; intros Hone; apply search_iff; (split; [exact Hscan|]).
  - exists (PyStr.lower (PosixPath.basename file_path)). split.
    + unfold query_tokens_of.
      rewrite split_one_word by (now rewrite one_word_lower). now left.
    + right. rewrite Hid.
      exists (PyStr.lower uid ++ "/")%string, EmptyString.
      now rewrite append_nil_r, append_assoc.
  - exists (PyStr.lower uid). split.
    + unfold query_tokens_of.
      rewrite split_one_word by (now rewrite one_word_lower). now left.
    + right. rewrite Hid. now exists EmptyString, ("/" ++ PyStr.lower (PosixPath.basename file_path))%string.
Qed.

Lemma X17_witness :
  exists (item : Item) (st' : State),
    PhotoOrganizerSystem.upload_and_process detector_err
      "2024-05-01T10:00:00" "/home/u/photo_error.png" "u1" state0
    = (Ok item, st')
    /\ In item (MockOpenSearch.search (db_table st') "photo_error.png")
    /\ In item (MockOpenSearch.search (db_table st') "u1").
Proof.
  eexists _, _.
  assert (H : PhotoOrganizerSystem.upload_and_process detector_err
                "2024-05-01T10:00:00" "/home/u/photo_error.png" "u1" state0
              = (Ok (metadata_of "2024-05-01T10:00:00"
                       "/home/u/photo_error.png" "u1" labels_err),
                 snd (PhotoOrganizerSystem.upload_and_process detector_err
                        "2024-05-01T10:00:00" "/home/u/photo_error.png"
                        "u1" state0)))
    by reflexivity.
  split; [exact H|].
  destruct (X17_ingested_photo_is_found_by_name _ _ _ _ _ _ _ H) as [H1 H2].
  split; [exact (H1 eq_refl) | exact (H2 eq_refl)].
Defined.

(** X18: after a successful ingest on a table with distinct keys,
    [PhotoOrganizerSystem()] built on the file system the call left has
    the table the running system has: the state is the same. *)
Theorem X18_restart_after_ingest (rekognition : Detector)
    (now file_path uid : string) (st st' : State) (item : Item) :
  Dict.wf (db_table st) ->
  PhotoOrganizerSystem.upload_and_process rekognition now file_path uid st
  = (Ok item, st') ->
  PhotoOrganizerSystem.__init__ (BASE_DIR st') (files st') = Ok st'.
Proof.
  intros Hwf. rewrite upload_and_process_unfold.
  destruct (MockS3.upload_file _ _ _ _) as [[dest fs']|e]; [|discriminate].
  destruct (rekognition _) as [labels_data|e]; [|discriminate].
  intros [= <- <-]. simpl.
  unfold PhotoOrganizerSystem.__init__.
  change (PosixPath.join (BASE_DIR st) "mock_dynamodb.json") with (DB_FILE st).
  rewrite init_after_save by now apply wf_set.
  reflexivity.
Qed.

Lemma X18_witness :
  Dict.wf (db_table state0)
  /\ exists (item : Item) (st' : State),
       PhotoOrganizerSystem.upload_and_process detector_err
         "2024-05-01T10:00:00" "/home/u/photo_error.png" "u1" state0
       = (Ok item, st')
       /\ PhotoOrganizerSystem.__init__ (BASE_DIR st') (files st') = Ok st'.
Proof.
  assert (Hwf : Dict.wf (db_table state0)) by constructor.
  split; [exact Hwf|]. eexists _, _.
  assert (H : PhotoOrganizerSystem.upload_and_process detector_err
                "2024-05-01T10:00:00" "/home/u/photo_error.png" "u1" state0
              = (Ok (metadata_of "2024-05-01T10:00:00"
                       "/home/u/photo_error.png" "u1" labels_err),
                 snd (PhotoOrganizerSystem.upload_and_process detector_err
                        "2024-05-01T10:00:00" "/home/u/photo_error.png"
                        "u1" state0)))
    by reflexivity.
  split; [exact H|].
  exact (X18_restart_after_ingest _ _ _ _ _ _ _ Hwf H).
Defined.

(* ------------------------------------------------------------------ *)
(** ** [main] *)

Lemma no_slash_not_substring (s : string) :
  PyStr.str_in "/" s = false -> ~ substring_of "/" s.
Proof. intros H Hsub. apply str_in_iff in Hsub. congruence. Qed.

Lemma rfind_succ_absent (sep : ascii) (s : string) :
  ~ substring_of (String sep EmptyString) s -> PyStr.rfind_succ sep s = 0.
Proof.
  induction s as [|c r IH]; intros H; [reflexivity|].
  simpl. rewrite IH.
  - destruct (Ascii.eqb_spec c sep) as [->|_]; [|reflexivity].
    exfalso. apply H. now exists EmptyString, r.
  - intros [pre [post E]]. apply H. exists (String c pre), post.
    simpl. now rewrite E.
Qed.

Lemma rfind_succ_app (sep : ascii) (d s : string) :
  ~ substring_of (String sep EmptyString) s ->
  PyStr.rfind_succ sep (d ++ s) = PyStr.rfind_succ sep d.
Proof.
  intros H. induction d as [|c d IH]; simpl.
  - now apply rfind_succ_absent.
  - now rewrite IH.
Qed.

Lemma rfind_succ_endswith (sep : ascii) (d : string) :
  PyStr.endswith_char d sep = true ->
  PyStr.rfind_succ sep d = String.length d.
Proof.
  induction d as [|c d IH]; [discriminate|].
  destruct d as [|e r].
  - simpl. now intros ->.
  - intros H.
    change (PyStr.rfind_succ sep (String c (String e r)))
      with (match PyStr.rfind_succ sep (String e r) with
            | 0 => if Ascii.eqb c sep then 1 else 0
            | S k => S (S k)
            end).
    rewrite (IH H). reflexivity.
Qed.

Lemma slice_from_app (d s : string) :
  PyStr.slice_from (String.length d) (d ++ s) = s.
Proof. induction d as [|c d IH]; [now destruct s | exact IH]. Qed.

(** [basename] of a directory that is empty or ends with [/] followed by
    a name without [/]. *)
Lemma basename_app (d name : string) :
  d = EmptyString \/ PyStr.endswith_char d PosixPath.sep = true ->
  PyStr.str_in "/" name = false ->
  PosixPath.basename (d ++ name) = name.
Proof.
  intros Hd Hname. unfold PosixPath.basename.
  rewrite rfind_succ_app by now apply no_slash_not_substring.
  destruct Hd as [->|Hd].
  - reflexivity.
  - rewrite rfind_succ_endswith by exact Hd. apply slice_from_app.
Qed.

Lemma no_slash_relative (name : string) :
  PyStr.str_in "/" name = false -> PyStr.startswith name "/" = false.
Proof.
  intros H. unfold PyStr.startswith.
  destruct (String.prefix "/" name) eqn:E; [|reflexivity].
  rewrite str_in_unfold, E in H. discriminate.
Qed.

Lemma dir_prefix_ends (a : string) :
  (a ++ join_sep a)%string = EmptyString
  \/ PyStr.endswith_char (a ++ join_sep a) PosixPath.sep = true.
Proof.
  unfold join_sep. destruct (String.eqb_spec a EmptyString) as [->|Hne].
  - now left.
  - simpl. destruct (PyStr.endswith_char a PosixPath.sep) eqn:E.
    + right. now rewrite append_nil_r.
    + right. now rewrite endswith_char_app by discriminate.
Qed.

Lemma basename_join (current_dir name : string) :
  PyStr.str_in "/" name = false ->
  PosixPath.basename (PosixPath.join current_dir name) = name.
Proof.
  intros H. rewrite join_relative by now apply no_slash_relative.
  rewrite <- append_assoc. apply basename_app; [apply dir_prefix_ends | exact H].
Qed.

Lemma listed_key (current_dir img : string) :
  PyStr.str_in "/" img = false ->
  s3_key_of (PosixPath.join current_dir img)
    PhotoOrganizerSystem.default_user_id
  = ("user_123/" ++ img)%string.
Proof. intros H. unfold s3_key_of. now rewrite basename_join. Qed.

Lemma process_images_cons (nows : nat -> string) (uniform : nat -> nat -> Q)
    (k : nat) (current_dir img : string) (rest : list string) (st : State) :
  process_images nows uniform k current_dir (img :: rest) st
  = match PhotoOrganizerSystem.upload_and_process
            (MockRekognition.detector (uniform k)) (nows k)
            (PosixPath.join current_dir img)
            PhotoOrganizerSystem.default_user_id st with
    | (Ok _, st') => process_images nows uniform (S k) current_dir rest st'
    | (Raise e, st') => (Raise e, st')
    end.
Proof. reflexivity. Qed.

Lemma ingested_after_set (table : Table) (img img0 : string) (r : Item) :
  photo_id r = ("user_123/" ++ img)%string ->
  original_filename r = img ->
  user_id r = "user_123" ->
  img0 = img \/ ingested table img0 ->
  ingested (Dict.set ("user_123/" ++ img) r table) img0.
Proof.
  intros H1 H2 H3 H. unfold ingested, MockDynamoDB.get_item.
  destruct (string_dec img0 img) as [->|Hne].
  - exists r. rewrite get_set_same. auto.
  - destruct H as [H|[r0 [Hget H0]]]; [congruence|].
    exists r0. rewrite get_set_other; [auto|].
    intros E. apply (append_inv_head "user_123/") in E. congruence.
Qed.

Lemma default_key_prefix (file_path : string) :
  PyStr.startswith
    (s3_key_of file_path PhotoOrganizerSystem.default_user_id) "user_123/"
  = true.
Proof.
  unfold PyStr.startswith. apply prefix_iff.
  now exists (PosixPath.basename file_path).
Qed.

(** The loop, whatever its turns do: it adds at most one record per
    image and touches no id outside [user_123/]. *)
Lemma process_images_frame (nows : nat -> string) (uniform : nat -> nat -> Q)
    (current_dir : string) (images : list string) :
  forall (k : nat) (st : State),
    let st' := snd (process_images nows uniform k current_dir images st) in
    List.length (db_table st) <= List.length (db_table st')
    /\ List.length (db_table st')
       <= List.length (db_table st) + List.length images
    /\ (forall pid, PyStr.startswith pid "user_123/" = false ->
                    Dict.get pid (db_table st') = Dict.get pid (db_table st)).
Proof.
  induction images as [|img rest IH]; intros k st; simpl.
  - repeat split; lia.
  - change (bind ?m ?f st)
      with (match m st with
            | (Ok a, st1) => f a st1
            | (Raise e, st1) => (Raise (A := unit) e, st1)
            end).
    rewrite upload_and_process_unfold.
    destruct (MockS3.upload_file _ _ _ _) as [[dest fs']|e];
      [|simpl; repeat split; lia].
    destruct (MockRekognition.detector (uniform k) _) as [labels_data|e];
      [|simpl; repeat split; lia].
    cbv zeta.
    set (item := metadata_of _ _ _ _).
    set (st1 := mkState (BASE_DIR st) _ _).
    specialize (IH (S k) st1). cbv zeta in IH.
    destruct IH as [H1 [H2 H3]].
    pose proof (length_set (photo_id item) item (db_table st)) as Hlen.
    change (db_table st1)
      with (Dict.set (photo_id item) item (db_table st)) in *.
    split; [lia|]. split; [lia|].
    intros pid Hpid. rewrite H3 by exact Hpid.
    apply get_set_other. intros ->.
    unfold item in Hpid.
    change (photo_id (metadata_of ?a ?b ?c ?d)) with (s3_key_of b c) in Hpid.
    rewrite default_key_prefix in Hpid. discriminate.
Qed.

(** What a slice holds, the list holds. *)
Lemma in_firstn {A : Type} (n : nat) (l : list A) (x : A) :
  In x (firstn n l) -> In x l.
Proof.
  intros H. rewrite <- (firstn_skipn n l). apply in_or_app. now left.
Qed.

(** The loop when it ends without an exception: every image has its
    record. *)
Lemma process_images_inv (nows : nat -> string) (uniform : nat -> nat -> Q)
    (current_dir : string) (images : list string) :
  forall (k : nat) (st st' : State),
    process_images nows uniform k current_dir images st = (Ok tt, st') ->
    (forall img, In img images -> PyStr.str_in "/" img = false) ->
    forall img, In img images \/ ingested (db_table st) img ->
                ingested (db_table st') img.
Proof.
  induction images as [|img rest IH]; intros k st st' Hrun Hall img0 H0.
  - injection Hrun as <-. destruct H0 as [[]|H0]; exact H0.
  - rewrite process_images_cons, upload_and_process_unfold in Hrun.
    destruct (MockS3.upload_file _ _ _ _) as [[dest fs']|e]; [|discriminate].
    rewrite mock_detector_returns in Hrun. cbv zeta in Hrun.
    assert (Hname : PyStr.str_in "/" img = false) by (apply Hall; now left).
    set (r := metadata_of _ _ _ _) in Hrun.
    assert (Hid : photo_id r = ("user_123/" ++ img)%string)
      by (apply listed_key; exact Hname).
    assert (Hfile : original_filename r = img)
      by (apply basename_join; exact Hname).
    rewrite Hid in Hrun.
    apply (IH _ _ _ Hrun); [intros i Hi; apply Hall; now right|].
    destruct H0 as [[<-|Hin]|Hold].
    + right. apply (ingested_after_set _ img img r Hid Hfile eq_refl).
      now left.
    + now left.
    + right. apply (ingested_after_set _ img img0 r Hid Hfile eq_refl).
      now right.
Qed.

(** [main] once the system is built. *)
Lemma main_unfold (listing : list string) (nows : nat -> string)
    (uniform : nat -> nat -> Q) (st0 : State) (table : Table) :
  MockDynamoDB.__init__ (DB_FILE st0) (files st0) = Ok table ->
  main listing nows uniform st0
  = match
      (match filter (fun f => str_endswith f ".png") listing with
       | [] =>
           process_images nows uniform 0 (BASE_DIR st0)
             ["test_image_dummy.png"]
             (mkState (BASE_DIR st0)
                (write_text (files st0)
                   (PosixPath.join (BASE_DIR st0) "test_image_dummy.png")
                   "dummy image content")
                table)
       | p :: ps =>
           process_images nows uniform 0 (BASE_DIR st0) (firstn 3 (p :: ps))
             (mkState (BASE_DIR st0) (files st0) table)
       end)
    with
    | (Ok _, st') => (Ok tt, st')
    | (Raise e, st') => (Raise e, st')
    end.
Proof.
  intros Hinit. unfold main, PhotoOrganizerSystem.__init__.
  change (PosixPath.join (BASE_DIR st0) "mock_dynamodb.json")
    with (DB_FILE st0).
  rewrite Hinit. cbv beta iota delta [rbind].
  destruct (filter (fun f => str_endswith f ".png") listing) as [|p ps];
    cbv beta iota zeta; unfold bind, PhotoOrganizerSystem.search_photos, ret;
    cbn [BASE_DIR files db_table firstn];
    match goal with
    | |- context [process_images ?a ?b ?c ?d ?e ?f] =>
        destruct (process_images a b c d e f) as [[[]|e0] st']
    end; reflexivity.
Qed.

(** X19: the snapshot loads, the names the working directory lists
    hold no [/], and [main] ends without an exception.  Then for each
    of the first three listed names ending in [.png] the table holds
    under [user_123/name] a record with that id, that file name and
    the user [user_123], and the scan has three records more than the
    loaded table at most. *)
Theorem X19_main_ingests_the_first_three_pngs (listing : list string)
    (nows : nat -> string) (uniform : nat -> nat -> Q) (st0 st' : State)
    (table : Table) :
  MockDynamoDB.__init__ (DB_FILE st0) (files st0) = Ok table ->
  (forall img, In img listing -> PyStr.str_in "/" img = false) ->
  main listing nows uniform st0 = (Ok tt, st') ->
  (forall img,
      In img (firstn 3 (filter (fun f => str_endswith f ".png") listing)) ->
      ingested (db_table st') img)
  /\ List.length (MockDynamoDB.scan (db_table st'))
     <= List.length (MockDynamoDB.scan table) + 3.
Proof.
  intros Hinit Hall Hmain. rewrite (main_unfold _ _ _ _ _ Hinit) in Hmain.
  assert (Hpng : forall img,
             In img (firstn 3 (filter (fun f => str_endswith f ".png")
                                 listing)) ->
             PyStr.str_in "/" img = false).
  { intros img Hin. apply Hall.
    apply in_firstn, filter_In in Hin. tauto. }
  unfold MockDynamoDB.scan, Dict.values. rewrite !length_map.
  destruct (filter (fun f => str_endswith f ".png") listing) as [|p ps].
  - pose proof (process_images_frame nows uniform (BASE_DIR st0)
                  ["test_image_dummy.png"] 0
                  (mkState (BASE_DIR st0)
                     (write_text (files st0)
                        (PosixPath.join (BASE_DIR st0) "test_image_dummy.png")
                        "dummy image content")
                     table)) as Hframe.
    cbv zeta in Hframe.
    destruct (process_images _ _ _ _ _ _) as [[[]|e0] st1];
      [|discriminate].
    injection Hmain as <-. cbn [snd db_table] in Hframe.
    split; [intros img []|]. simpl in Hframe. lia.
  - pose proof (process_images_frame nows uniform (BASE_DIR st0)
                  (firstn 3 (p :: ps)) 0
                  (mkState (BASE_DIR st0) (files st0) table)) as Hframe.
    cbv zeta in Hframe.
    assert (Hn : List.length (firstn 3 (p :: ps)) <= 3)
      by (rewrite length_firstn; lia).
    destruct (process_images _ _ _ _ _ _) as [[[]|e0] st1] eqn:Hrun;
      [|discriminate].
    injection Hmain as <-. cbn [snd db_table] in Hframe.
    split; [|lia].
    intros img Hin.
    apply (process_images_inv _ _ _ _ _ _ _ Hrun Hpng). now left.
Qed.

Lemma X19_witness :
  (forall img,
      In img ["a.png"; "job_login.png"; "c.png"] ->
      ingested (db_table (snd (main
                  ["a.png"; "notes.txt"; "job_login.png"; "c.png"; "d.png"]
                  (fun _ => "2024-05-01T10:00:00") (fun _ _ => 90%Q)
                  world_pngs))) img)
  /\ List.length
       (MockDynamoDB.scan
          (db_table (snd (main
             ["a.png"; "notes.txt"; "job_login.png"; "c.png"; "d.png"]
             (fun _ => "2024-05-01T10:00:00") (fun _ _ => 90%Q)
             world_pngs))))
     <= 0 + 3.
Proof.
  apply (X19_main_ingests_the_first_three_pngs
           ["a.png"; "notes.txt"; "job_login.png"; "c.png"; "d.png"]
           (fun _ => "2024-05-01T10:00:00") (fun _ _ => 90%Q) world_pngs _ []).
  - reflexivity.
  - intros img [<-|[<-|[<-|[<-|[<-|[]]]]]]; reflexivity.
  - reflexivity.
Defined.

(** X20: the snapshot loads, the working directory lists no name ending
    in [.png], and [main] ends without an exception.  Then the table
    holds under [user_123/test_image_dummy.png] a record with the file
    name [test_image_dummy.png], the user [user_123] and the tags
    Person, Indoor, Screenshot, and the scan has one record more than
    the loaded table at most. *)
Theorem X20_main_without_png_ingests_the_dummy (listing : list string)
    (nows : nat -> string) (uniform : nat -> nat -> Q) (st0 st' : State)
    (table : Table) :
  MockDynamoDB.__init__ (DB_FILE st0) (files st0) = Ok table ->
  filter (fun f => str_endswith f ".png") listing = [] ->
  main listing nows uniform st0 = (Ok tt, st') ->
  exists r : Item,
    MockDynamoDB.get_item (db_table st') "user_123/test_image_dummy.png"
    = Some r
    /\ photo_id r = "user_123/test_image_dummy.png"
    /\ tags r = ["Person"; "Indoor"; "Screenshot"]
    /\ original_filename r = "test_image_dummy.png"
    /\ user_id r = "user_123"
    /\ List.length (MockDynamoDB.scan (db_table st'))
       <= S (List.length (MockDynamoDB.scan table)).
Proof.
  intros Hinit Hnone Hmain.
  rewrite (main_unfold _ _ _ _ _ Hinit), Hnone in Hmain.
  rewrite process_images_cons, upload_and_process_unfold in Hmain.
  destruct (MockS3.upload_file _ _ _ _) as [[dest fs']|e]; [|discriminate].
  rewrite mock_detector_returns in Hmain. cbv zeta in Hmain.
  set (r := metadata_of _ _ _ _) in Hmain.
  assert (Hid : photo_id r = "user_123/test_image_dummy.png")
    by (apply (listed_key (BASE_DIR st0) "test_image_dummy.png"); reflexivity).
  assert (Hfile : original_filename r = "test_image_dummy.png")
    by (apply (basename_join (BASE_DIR st0) "test_image_dummy.png");
        reflexivity).
  assert (Htags : tags r = ["Person"; "Indoor"; "Screenshot"]).
  { unfold r. cbn [tags metadata_of].
    rewrite (listed_key (BASE_DIR st0) "test_image_dummy.png" eq_refl).
    rewrite detect_labels_names. reflexivity. }
  rewrite Hid in Hmain. simpl process_images in Hmain. unfold ret in Hmain.
  injection Hmain as <-. cbn [db_table].
  exists r. split; [apply get_set_same|].
  split; [exact Hid|]. split; [exact Htags|]. split; [exact Hfile|].
  split; [reflexivity|].
  unfold MockDynamoDB.scan, Dict.values. rewrite !length_map.
  apply length_set.
Qed.

Lemma X20_witness :
  exists r : Item,
    MockDynamoDB.get_item
      (db_table (snd (main ["notes.txt"; "mock_s3_bucket"]
                        (fun _ => "2024-05-01T10:00:00") (fun _ _ => 90%Q)
                        world_empty)))
      "user_123/test_image_dummy.png"
    = Some r
    /\ photo_id r = "user_123/test_image_dummy.png"
    /\ tags r = ["Person"; "Indoor"; "Screenshot"]
    /\ original_filename r = "test_image_dummy.png"
    /\ user_id r = "user_123"
    /\ List.length
         (MockDynamoDB.scan
            (db_table (snd (main ["notes.txt"; "mock_s3_bucket"]
                              (fun _ => "2024-05-01T10:00:00")
                              (fun _ _ => 90%Q) world_empty))))
       <= S (List.length (MockDynamoDB.scan [])).
Proof.
  apply (X20_main_without_png_ingests_the_dummy
           ["notes.txt"; "mock_s3_bucket"] (fun _ => "2024-05-01T10:00:00")
           (fun _ _ => 90%Q) world_empty _ []).
  - reflexivity.
  - reflexivity.
  - reflexivity.
Defined.

(** X21: [main] whatever the directory holds.  When the snapshot loads,
    the number of records of the scan does not decrease and grows by
    three at most, and [get_item] returns what the loaded table held for
    every id that does not start with [user_123/].  When the snapshot
    file holds text that is not JSON, [main] raises the
    [JSONDecodeError] of the constructor and changes nothing. *)
Theorem X21_main_adds_three_records_at_most (listing : list string)
    (nows : nat -> string) (uniform : nat -> nat -> Q) (st0 : State) :
  (forall table,
      MockDynamoDB.__init__ (DB_FILE st0) (files st0) = Ok table ->
      List.length (MockDynamoDB.scan table)
      <= List.length
           (MockDynamoDB.scan (db_table (snd (main listing nows uniform st0))))
      <= List.length (MockDynamoDB.scan table) + 3
      /\ (forall pid,
            PyStr.startswith pid "user_123/" = false ->
            MockDynamoDB.get_item
              (db_table (snd (main listing nows uniform st0))) pid
            = MockDynamoDB.get_item table pid))
  /\ (MockDynamoDB.__init__ (DB_FILE st0) (files st0) = Raise JSONDecodeError
      -> main listing nows uniform st0 = (Raise JSONDecodeError, st0)).
Proof.
  split.
  - intros table Hinit. rewrite (main_unfold _ _ _ _ _ Hinit).
    unfold MockDynamoDB.scan, Dict.values, MockDynamoDB.get_item.
    rewrite !length_map.
    destruct (filter (fun f => str_endswith f ".png") listing) as [|p ps].
    + pose proof (process_images_frame nows uniform (BASE_DIR st0)
                    ["test_image_dummy.png"] 0
                    (mkState (BASE_DIR st0)
                       (write_text (files st0)
                          (PosixPath.join (BASE_DIR st0)
                             "test_image_dummy.png")
                          "dummy image content")
                       table)) as H.
      cbv zeta in H.
      destruct (process_images _ _ _ _ _ _) as [[[]|e0] st'];
        simpl in H |- *; destruct H as [H1 [H2 H3]];
        (split; [lia | exact H3]).
    + pose proof (process_images_frame nows uniform (BASE_DIR st0)
                    (firstn 3 (p :: ps)) 0
                    (mkState (BASE_DIR st0) (files st0) table)) as H.
      cbv zeta in H.
      assert (Hn : List.length (firstn 3 (p :: ps)) <= 3)
        by (rewrite length_firstn; lia).
      destruct (process_images _ _ _ _ _ _) as [[[]|e0] st'];
        simpl db_table in H; simpl snd in H |- *;
        destruct H as [H1 [H2 H3]]; (split; [lia | exact H3]).
  - intros Hinit. unfold main, PhotoOrganizerSystem.__init__.
    change (PosixPath.join (BASE_DIR st0) "mock_dynamodb.json")
      with (DB_FILE st0).
    now rewrite Hinit.
Qed.

(* ------------------------------------------------------------------ *)
(** ** The code on concrete inputs *)

Example lower_ex : PyStr.lower "Error Message" = "error message".
Proof. reflexivity. Qed.

Example split_ex : PyStr.split "  sunset   beach " = ["sunset"; "beach"].
Proof. reflexivity. Qed.

Example basename_ex : PosixPath.basename "/home/u/pics/a.png" = "a.png".
Proof. reflexivity. Qed.

Example join_ex :
  PosixPath.join "/srv/app" "mock_dynamodb.json"
  = "/srv/app/mock_dynamodb.json".
Proof. reflexivity. Qed.

Example detect_labels_ex :
  map Name (MockRekognition.detect_labels (fun _ => 90%Q)
              "u1/photo_error.png")
  = ["Person"; "Indoor"; "Screenshot";
     "Text"; "Error Message"; "Computer"; "Monitor"].
Proof. reflexivity. Qed.

Example dumps_ex :
  Json.dumps (json_of_table [("u1/a.png", rec_png)])
  = requote
      (String.concat (String "010" EmptyString)
         ["{";
          "  'u1/a.png': {";
          "    'photo_id': 'u1/a.png',";
          "    'user_id': 'u1',";
          "    'timestamp': '2024-05-01T10:00:00',";
          "    'tags': [";
          "      'Person'";
          "    ],";
          "    'original_filename': 'a.png',";
          "    'location': 'Unknown'";
          "  }";
          "}"]).
Proof. vm_compute. reflexivity. Qed.

Example reload_ex :
  MockDynamoDB.__init__ db_file0
    (snd (put_items db_file0 [rec_err; rec_png; rec_err] [] []))
  = Ok [("u1/shot.jpg", rec_err); ("u1/a.png", rec_png)].
Proof. vm_compute. reflexivity. Qed.

Example search_error_message_ex :
  MockOpenSearch.search table_err "Error Message" = [].
Proof. reflexivity. Qed.
